(** * HyperCore wallet tracker: the metric engine and the snapshot store

    A shallow embedding of [utils.py]: the data source adapter
    ([get_token_balances]), the metric engine ([calculate_portfolio_value],
    [calculate_pnl], [calculate_volume]) and the snapshot store
    ([store_wallet_data], [get_latest_balances], [get_recent_trades]).

    Conventions of the embedding:
    - A Python [float] is a finite double, read as the exact rational it
      stands for, or one of inf, -inf and nan.  A sum or product of finite
      values is the exact one, or an infinity when it rounds out of the
      range of a double; rounding within the range is not modelled.  What
      [float(...)] makes of a string is a parameter, [float_of_string].  The
      numbers in the columns of a DataFrame are finite, and are read as
      exact rationals ([Q]).
    - [datetime.now()] is an explicit argument of every function that reads
      the clock.  A [datetime] is a count of microseconds and a pandas
      [Timestamp] a count of nanoseconds, both since 1970-01-01T00:00:00.
    - A DataFrame is its list of column labels and its list of rows; a lookup
      of a missing column raises [KeyError].
    - The SQLite connection is the content of its two tables as the
      connection sees it, rows in rowid order, whether committed or not; TEXT
      columns are compared bytewise, as SQLite's BINARY collation does. *)

From Stdlib Require Import ZArith QArith Lia Lqa Ascii.
From stdpp Require Import base option list sorting strings gmap.

Local Open Scope Z_scope.

(** ** Exceptions *)

Inductive exception :=
  | ConnectionError
  | JSONDecodeError
  | TypeError
  | ValueError
  | OverflowError
  | ZeroDivisionError
  | KeyError (key : string)
  | IntegrityError.

Inductive result (A : Type) :=
  | Ok (a : A)
  | Raise (e : exception).
Arguments Ok {A} a.
Arguments Raise {A} e.

Global Instance result_ret : MRet result := @Ok.

Global Instance result_bind : MBind result := λ A B k r,
  match r with
  | Ok a => k a
  | Raise e => Raise e
  end.

(** [try: body except Exception: handler] *)
Definition try_except {A : Type} (body : result A) (handler : result A) : result A :=
  match body with
  | Ok a => Ok a
  | Raise _ => handler
  end.

(** ** Numbers *)

Inductive float :=
  | Finite (q : Q)
  | PosInf
  | NegInf
  | NaN.

(** The least magnitude that rounds out of the range of a double: the
    midpoint between the largest double, 2^1024 - 2^971, and 2^1024. *)
Definition float_int_limit : Z := 2 ^ 1024 - 2 ^ 970.

(** The float of an exact sum or product: an infinity when it rounds out
    of range. *)
Definition to_float (q : Q) : float :=
  if Qle_bool (inject_Z float_int_limit) q then PosInf
  else if Qle_bool q (inject_Z (- float_int_limit)) then NegInf
  else Finite q.

(** The infinity with the sign of [q]; nan when [q] is zero. *)
Definition signed_inf (q : Q) : float :=
  match (q ?= 0)%Q with
  | Eq => NaN
  | Gt => PosInf
  | Lt => NegInf
  end.

(** [x * y] *)
Definition float_mul (x y : float) : float :=
  match x, y with
  | NaN, _ | _, NaN => NaN
  | Finite a, Finite b => to_float (a * b)
  | Finite a, PosInf | PosInf, Finite a => signed_inf a
  | Finite a, NegInf | NegInf, Finite a => signed_inf (- a)
  | PosInf, PosInf | NegInf, NegInf => PosInf
  | PosInf, NegInf | NegInf, PosInf => NegInf
  end.

(** [x + y] *)
Definition float_add (x y : float) : float :=
  match x, y with
  | NaN, _ | _, NaN => NaN
  | Finite a, Finite b => to_float (a + b)
  | PosInf, NegInf | NegInf, PosInf => NaN
  | PosInf, _ | _, PosInf => PosInf
  | NegInf, _ | _, NegInf => NegInf
  end.

(** [x == y]: nan equals nothing, itself included. *)
Definition float_eqb (x y : float) : bool :=
  match x, y with
  | Finite a, Finite b => Qeq_bool a b
  | PosInf, PosInf | NegInf, NegInf => true
  | _, _ => false
  end.

(** An object that a decoded JSON document can hold; [PyOther] is a list
    or a dict. *)
Inductive pyobject :=
  | PyNone
  | PyBool (b : bool)
  | PyInt (z : Z)
  | PyFloat (x : float)
  | PyStr (s : string)
  | PyOther.

(** [float(v)], with [float_of_string s] for what [float(s)] does on a
    string: the float it denotes ("inf" and "nan" are among the strings
    Python accepts) or [ValueError].  An [int] that rounds out of the range
    of a double raises. *)
Definition py_float (float_of_string : string → result float) (v : pyobject)
    : result float :=
  match v with
  | PyNone | PyOther => Raise TypeError
  | PyBool b => Ok (Finite (if b then 1 else 0))
  | PyInt z =>
      if Z.abs z <? float_int_limit then Ok (Finite (inject_Z z))
      else Raise OverflowError
  | PyFloat x => Ok x
  | PyStr s => float_of_string s
  end.

(** ** Time *)

Definition datetime := Z.
Definition Timestamp := Z.

(** [timedelta(days=days)], in microseconds. *)
Definition timedelta (days : Z) : Z := days * 86400000000.

(** A [datetime] seen as a [Timestamp], as pandas does when it compares a
    datetime column with a [datetime]. *)
Definition to_Timestamp (d : datetime) : Timestamp := d * 1000.

Definition digit (n : Z) : ascii := ascii_of_nat (48 + Z.to_nat (n mod 10)).

(** The last [width] decimal digits of [n], zero padded. *)
Fixpoint zfill (width : nat) (n : Z) : string :=
  match width with
  | O => ""
  | S w => zfill w (n / 10) +:+ String (digit n) ""
  end.

(** Year, month and day of the proleptic Gregorian calendar from a day
    count since 1970-01-01. *)
Definition civil_from_days (days : Z) : Z * Z * Z :=
  let z := days + 719468 in
  let era := z / 146097 in
  let doe := z mod 146097 in
  let yoe := (doe - doe / 1460 + doe / 36524 - doe / 146096) / 365 in
  let doy := doe - (365 * yoe + yoe / 4 - yoe / 100) in
  let mp := (5 * doy + 2) / 153 in
  let d := doy - (153 * mp + 2) / 5 + 1 in
  let m := if mp <? 10 then mp + 3 else mp - 9 in
  let y := yoe + era * 400 + (if m <=? 2 then 1 else 0) in
  (y, m, d).

(** [YYYY-MM-DDTHH:MM:SS] of a count of seconds. *)
Definition isoformat_seconds (secs : Z) : string :=
  let '(y, m, d) := civil_from_days (secs / 86400) in
  let sod := secs mod 86400 in
  zfill 4 y +:+ "-" +:+ zfill 2 m +:+ "-" +:+ zfill 2 d +:+ "T" +:+
  zfill 2 (sod / 3600) +:+ ":" +:+ zfill 2 (sod / 60 mod 60) +:+ ":" +:+
  zfill 2 (sod mod 60).

(** [datetime.isoformat()]: the microseconds are printed when they are not 0. *)
Definition datetime_isoformat (d : datetime) : string :=
  let us := d mod 1000000 in
  isoformat_seconds (d / 1000000) +:+
  (if us =? 0 then "" else "." +:+ zfill 6 us).

(** [Timestamp.isoformat()]: as [datetime.isoformat()], with nine digits
    when the nanoseconds are not 0. *)
Definition Timestamp_isoformat (t : Timestamp) : string :=
  let ns := t mod 1000000000 in
  if ns mod 1000 =? 0 then datetime_isoformat (t / 1000)
  else isoformat_seconds (t / 1000000000) +:+ "." +:+ zfill 9 ns.

(** ** JSON values *)

#[warnings="-register-all"] Inductive json :=
  | JNull
  | JBool (b : bool)
  | JNum (q : Q)
  | JStr (s : string)
  | JList (l : list json)
  | JDict (d : gmap string json).

(** [needle in haystack] on strings. *)
Fixpoint is_substring (needle haystack : string) : bool :=
  String.prefix needle haystack ||
  match haystack with
  | EmptyString => false
  | String _ rest => is_substring needle rest
  end.

Definition is_JStr (k : string) (v : json) : bool :=
  match v with
  | JStr s => String.eqb s k
  | _ => false
  end.

(** [key in data] for a string [key] *)
Definition py_contains (key : string) (data : json) : result bool :=
  match data with
  | JDict d => Ok (bool_decide (is_Some (d !! key)))
  | JList l => Ok (existsb (is_JStr key) l)
  | JStr s => Ok (is_substring key s)
  | _ => Raise TypeError
  end.

(** [data[key]] for a string [key] *)
Definition py_getitem (data : json) (key : string) : result json :=
  match data with
  | JDict d =>
      match d !! key with
      | Some v => Ok v
      | None => Raise (KeyError key)
      end
  | _ => Raise TypeError
  end.

(** ** Data source adapter *)

(** What [requests.post] gives back: it raises or returns a response, whose
    [json()] raises or returns the decoded body. *)
Record Response := { response_json : result json }.

Definition demo_balances : json :=
  JList [ JDict {[ "coin" := JStr "HYPE"; "total" := JStr "0.0505" ]};
          JDict {[ "coin" := JStr "USDC"; "total" := JStr "0.0000" ]};
          JDict {[ "coin" := JStr "USDT"; "total" := JStr "0.0010" ]} ].

Section Adapter.

(** The network: the outcome of posting the payload
    [{"type": "spotClearinghouseState", "user": wallet}] to [api_endpoint]. *)
Variable requests_post : string → string → result Response.

Definition get_token_balances (wallet api_endpoint : string) : result json :=
  try_except
    (response ← requests_post api_endpoint wallet;
     data ← response_json response;
     found ← py_contains "balances" data;
     if negb found then Ok demo_balances
     else py_getitem data "balances")
    (Ok demo_balances).

End Adapter.

(** The fetch fails: the request raises, the body does not decode, or the
    decoded object has no ["balances"] key. *)
Inductive fetch_fails : result Response → Prop :=
  | fails_request e : fetch_fails (Raise e)
  | fails_decode r e : response_json r = Raise e → fetch_fails (Ok r)
  | fails_no_key r d :
      response_json r = Ok (JDict d) → d !! "balances" = None →
      fetch_fails (Ok r).

(** ** Metric engine *)

(** An entry of a balance list: a dict that may hold a ["coin"] and a
    ["total"]. *)
Record Balance := {
  bal_coin : option string;
  bal_total : option pyobject;
}.

(** [Series.sum()] *)
Definition Qsum (values : list Q) : Q := foldr Qplus 0%Q values.

Section PortfolioValue.

Variable float_of_string : string → result float.

(** The loop stops at the first total that [float()] rejects. *)
Definition calculate_portfolio_value
    (balances : list Balance) (prices : gmap string float) : result float :=
  fold_left
    (λ total_value balance,
       total_value ← total_value;
       let coin := default "Unknown" (bal_coin balance) in
       amount ← py_float float_of_string (default (PyInt 0) (bal_total balance));
       let price := default (Finite 0) (prices !! coin) in
       Ok (float_add total_value (float_mul amount price)))
    balances (Ok (Finite 0)).

End PortfolioValue.

(** A row of a trade DataFrame.  A field whose column is not among the
    frame's [columns] is never read. *)
Record Trade := {
  t_timestamp : Timestamp;
  t_coin : string;
  t_side : string;
  t_size : Q;
  t_price : Q;
  t_fee : Q;
  t_value_usd : Q;
  t_pnl : Q;
}.

Record DataFrame := {
  columns : list string;
  rows : list Trade;
}.

(** [df.empty]: one of the two axes has length 0. *)
Definition empty (df : DataFrame) : bool :=
  bool_decide (columns df = []) || bool_decide (rows df = []).

(** [label in df.columns] *)
Definition has_column (label : string) (df : DataFrame) : bool :=
  bool_decide (label ∈ columns df).

(** [df[label]], read through the field that holds the column. *)
Definition column {A : Type} (label : string) (field : Trade → A)
    (df : DataFrame) : result (list A) :=
  if has_column label df then Ok (field <$> rows df)
  else Raise (KeyError label).

(** [df[mask]] for the boolean mask that [keep] computes row by row. *)
Definition select (keep : Trade → bool) (df : DataFrame) : DataFrame :=
  {| columns := columns df; rows := List.filter keep (rows df) |}.

(** [df[df['timestamp'] >= start_date]] *)
Definition since (start_date : datetime) (df : DataFrame) : result DataFrame :=
  _ ← column "timestamp" t_timestamp df;
  Ok (select (λ t, to_Timestamp start_date <=? t_timestamp t) df).

(** [df[df['side'] == label]] *)
Definition with_side (label : string) (df : DataFrame) : result DataFrame :=
  _ ← column "side" t_side df;
  Ok (select (λ t, String.eqb (t_side t) label) df).

Definition period_table : gmap string Z :=
  {[ "24 hours" := 1; "7 days" := 7; "30 days" := 30; "All time" := 9999 ]}.

Definition period_days (time_period : string) : Z :=
  default 30 (period_table !! time_period).

(** [x > 0] *)
Definition Qpositive (x : Q) : bool := negb (Qle_bool x 0).

(** [x / y], which raises when [y] is zero. *)
Definition py_div (x y : Q) : result Q :=
  if Qeq_bool y 0 then Raise ZeroDivisionError else Ok (x / y)%Q.

Definition calculate_pnl (now : datetime) (trades_df : DataFrame)
    (current_prices : gmap string Q) (time_period : string) : result (Q * Q) :=
  if empty trades_df then Ok (0%Q, 0%Q) else
  let days := period_days time_period in
  let start_date := now - timedelta days in
  period_trades ← since start_date trades_df;
  if empty period_trades then Ok (0%Q, 0%Q) else
  total_pnl ←
    (if has_column "pnl" period_trades then
       values ← column "pnl" t_pnl period_trades;
       Ok (Qsum values)
     else
       buys ← with_side "buy" period_trades;
       sells ← with_side "sell" period_trades;
       buy_value ←
         (if negb (empty buys) then
            values ← column "value_usd" t_value_usd buys; Ok (Qsum values)
          else Ok 0%Q);
       sell_value ←
         (if negb (empty sells) then
            values ← column "value_usd" t_value_usd sells; Ok (Qsum values)
          else Ok 0%Q);
       Ok (sell_value - buy_value)%Q);
  values ← column "value_usd" t_value_usd period_trades;
  let investment := (Qsum values / 2)%Q in
  pnl_percentage ←
    (if Qpositive investment then
       ratio ← py_div total_pnl investment; Ok (ratio * 100)%Q
     else Ok 0%Q);
  Ok (total_pnl, pnl_percentage).

Definition calculate_volume (now : datetime) (trades_df : DataFrame)
    (time_period : string) : result Q :=
  if empty trades_df then Ok 0%Q else
  let days := period_days time_period in
  let start_date := now - timedelta days in
  period_trades ← since start_date trades_df;
  if empty period_trades then Ok 0%Q else
  if has_column "value_usd" period_trades then
    values ← column "value_usd" t_value_usd period_trades;
    Ok (Qsum values)
  else if has_column "size" period_trades && has_column "price" period_trades then
    sizes ← column "size" t_size period_trades;
    prices ← column "price" t_price period_trades;
    Ok (Qsum (zip_with Qmult sizes prices))
  else Ok 0%Q.

(** ** Snapshot store *)

(** A row of [balances]: [amount] is [REAL NOT NULL], [price] and
    [value_usd] are [REAL] and may be NULL. *)
Record BalanceRow := {
  b_id : Z;
  b_wallet : string;
  b_timestamp : string;
  b_coin : string;
  b_amount : float;
  b_price : option float;
  b_value_usd : option float;
}.

Record TradeRow := {
  r_id : Z;
  r_wallet : string;
  r_timestamp : string;
  r_coin : string;
  r_side : string;
  r_size : Q;
  r_price : Q;
  r_fee : Q;
  r_value_usd : Q;
}.

(** The database behind a connection: each table in rowid order, with the
    last id its AUTOINCREMENT key has handed out. *)
Record Connection := {
  balances : list BalanceRow;
  balances_seq : Z;
  trades : list TradeRow;
  trades_seq : Z;
}.

(** What SQLite binds for a float: nan is bound as NULL. *)
Definition sql_real (x : float) : option float :=
  match x with
  | NaN => None
  | _ => Some x
  end.

(** [INSERT INTO balances (wallet, timestamp, coin, amount, price, value_usd)]:
    the database after the statement and how the statement ended.  A nan
    amount is a NULL in a [NOT NULL] column: the statement raises and
    inserts nothing. *)
Definition insert_balance (conn : Connection) (wallet timestamp coin : string)
    (amount price value_usd : float) : Connection * result () :=
  match sql_real amount with
  | None => (conn, Raise IntegrityError)
  | Some amount =>
      let id := balances_seq conn + 1 in
      ({| balances := balances conn ++
            [ {| b_id := id; b_wallet := wallet; b_timestamp := timestamp;
                 b_coin := coin; b_amount := amount; b_price := sql_real price;
                 b_value_usd := sql_real value_usd |} ];
          balances_seq := id;
          trades := trades conn;
          trades_seq := trades_seq conn |}, Ok ())
  end.

(** [INSERT INTO trades (wallet, timestamp, coin, side, size, price, fee, value_usd)] *)
Definition insert_trade (conn : Connection) (wallet timestamp coin side : string)
    (size price fee value_usd : Q) : Connection :=
  let id := trades_seq conn + 1 in
  {| balances := balances conn;
     balances_seq := balances_seq conn;
     trades := trades conn ++
       [ {| r_id := id; r_wallet := wallet; r_timestamp := timestamp;
            r_coin := coin; r_side := side; r_size := size; r_price := price;
            r_fee := fee; r_value_usd := value_usd |} ];
     trades_seq := id |}.

Section Store.

Variable float_of_string : string → result float.

(** The loop over [balances] of [store_wallet_data]: the database it leaves
    and how it ended.  It stops at the first entry whose total [float()]
    rejects or whose row the table refuses; the rows inserted before stay
    in the connection. *)
Fixpoint store_balances (timestamp : string) (wallet : string)
    (prices : gmap string float) (entries : list Balance) (conn : Connection)
    : Connection * result () :=
  match entries with
  | [] => (conn, Ok ())
  | balance :: entries =>
      let coin := default "Unknown" (bal_coin balance) in
      match py_float float_of_string (default (PyInt 0) (bal_total balance)) with
      | Raise e => (conn, Raise e)
      | Ok amount =>
          let price := default (Finite 0) (prices !! coin) in
          let value_usd := float_mul amount price in
          match insert_balance conn wallet timestamp coin amount price value_usd with
          | (conn, Raise e) => (conn, Raise e)
          | (conn, Ok _) => store_balances timestamp wallet prices entries conn
          end
      end
  end.

(** A trade row lacks one of the labels the store needs. *)
Definition lacks_essential (df : DataFrame) : bool :=
  negb (has_column "timestamp" df) || negb (has_column "coin" df) ||
  negb (has_column "side" df) || negb (has_column "size" df) ||
  negb (has_column "price" df).

(** The loop over [trades.iterrows()] of [store_wallet_data]. *)
Definition store_trades (wallet : string) (df : DataFrame) (conn : Connection)
    : Connection :=
  fold_left
    (λ conn trade,
       if lacks_essential df then conn
       else
         insert_trade conn wallet
           (Timestamp_isoformat (t_timestamp trade))
           (t_coin trade)
           (t_side trade)
           (t_size trade)
           (t_price trade)
           (if has_column "fee" df then t_fee trade else 0%Q)
           (if has_column "value_usd" df then t_value_usd trade else 0%Q))
    (rows df) conn.

Definition store_wallet_data (now : datetime) (conn : Connection)
    (wallet : string) (entries : list Balance) (prices : gmap string float)
    (trades_df : option DataFrame) : Connection * result () :=
  let timestamp := datetime_isoformat now in
  match store_balances timestamp wallet prices entries conn with
  | (conn, Raise e) => (conn, Raise e)
  | (conn, Ok _) =>
      (match trades_df with
       | Some df => if negb (empty df) then store_trades wallet df conn else conn
       | None => conn
       end, Ok ())
  end.

End Store.

(** The larger of two TEXT values. *)
Definition text_max (a b : string) : string :=
  if String.leb a b then b else a.

(** [SELECT MAX(...)]: NULL over no rows. *)
Definition sql_max (values : list string) : option string :=
  foldr (λ v acc, Some (from_option (text_max v) v acc)) None values.

(** A wallet argument that Python takes as true: given and not empty. *)
Definition truthy (wallet : option string) : option string :=
  match wallet with
  | Some w => if String.eqb w "" then None else Some w
  | None => None
  end.

(** The rows of a wallet. *)
Definition of_wallet (wallet : string) (table : list BalanceRow) : list BalanceRow :=
  List.filter (λ b, String.eqb (b_wallet b) wallet) table.

Definition get_latest_balances (conn : Connection) (wallet : option string)
    : list BalanceRow :=
  match truthy wallet with
  | Some w =>
      match sql_max (b_timestamp <$> of_wallet w (balances conn)) with
      | None => []
      | Some max_time =>
          if String.eqb max_time "" then []
          else
            List.filter
              (λ b, String.eqb (b_wallet b) w && String.eqb (b_timestamp b) max_time)
              (balances conn)
      end
  | None =>
      List.filter
        (λ b, bool_decide
                (sql_max (b_timestamp <$> of_wallet (b_wallet b) (balances conn))
                 = Some (b_timestamp b)))
        (balances conn)
  end.

(** [ORDER BY timestamp DESC]: the row with the later timestamp first.
    SQL leaves the order of rows with equal timestamps open; [merge_sort]
    fixes one, and no statement below depends on which. *)
Definition later_first (r1 r2 : TradeRow) : Prop :=
  String.le (r_timestamp r2) (r_timestamp r1).

Global Instance later_first_dec : RelDecision later_first.
Proof. intros r1 r2. unfold later_first. apply _. Defined.

(** [LIMIT n]: no bound when [n] is negative. *)
Definition sql_limit {A : Type} (n : Z) (l : list A) : list A :=
  if n <? 0 then l else take (Z.to_nat n) l.

(** An [int] bound to a statement: SQLite integers have 64 bits. *)
Definition sql_integer (n : Z) : result Z :=
  if (- 2 ^ 63 <=? n) && (n <? 2 ^ 63) then Ok n else Raise OverflowError.

Definition get_recent_trades (conn : Connection) (wallet : option string)
    (limit : Z) : result (list TradeRow) :=
  let selected :=
    match truthy wallet with
    | Some w => List.filter (λ r, String.eqb (r_wallet r) w) (trades conn)
    | None => trades conn
    end in
  limit ← sql_integer limit;
  Ok (sql_limit limit (merge_sort later_first selected)).

(** ** Notions the statements use *)

(** The labels the period table knows. *)
Definition period_labels : list string :=
  ["24 hours"; "7 days"; "30 days"; "All time"].

(** A trade lies in the window that ends at [now] and is [days] long. *)
Definition in_window (now : datetime) (days : Z) (t : Trade) : bool :=
  to_Timestamp (now - timedelta days) <=? t_timestamp t.

(** The trades of a frame inside the window of a period label. *)
Definition window (now : datetime) (label : string) (df : DataFrame) : list Trade :=
  List.filter (in_window now (period_days label)) (rows df).

(** The trades of a list on one side of the book. *)
Definition on_side (label : string) (l : list Trade) : list Trade :=
  List.filter (λ t, String.eqb (t_side t) label) l.

(** What a trade adds to the volume of its frame: its [value_usd], or
    [size * price] in a frame without that column. *)
Definition traded_value (df : DataFrame) (t : Trade) : Q :=
  if has_column "value_usd" df then t_value_usd t
  else if has_column "size" df && has_column "price" df
       then (t_size t * t_price t)%Q
       else 0%Q.

(** [a] sorts strictly before [b] as TEXT. *)
Definition text_lt (a b : string) : Prop := String.ltb a b = true.

(** [column == x] for a REAL column read back from a row: NULL reads as
    [None], which equals no number. *)
Definition reads_as (column : option float) (x : float) : Prop :=
  ∃ y, column = Some y ∧ float_eqb y x = true.


(** The balance row that a call for [wallet] stamped [timestamp] inserts
    for an entry of its balance list, as SQLite keeps it. *)
Definition inserts_balance (float_of_string : string → result float)
    (wallet timestamp : string) (prices : gmap string float)
    (entry : Balance) (row : BalanceRow) : Prop :=
  b_wallet row = wallet ∧
  b_timestamp row = timestamp ∧
  b_coin row = default "Unknown" (bal_coin entry) ∧
  py_float float_of_string (default (PyInt 0) (bal_total entry))
    = Ok (b_amount row) ∧
  b_price row = sql_real (default (Finite 0) (prices !! b_coin row)) ∧
  b_value_usd row
    = sql_real (float_mul (b_amount row) (default (Finite 0) (prices !! b_coin row))).



(** The trades of a frame that a call stores: all of them, or none when the
    frame is absent, empty or lacks an essential column. *)
Definition stored_trades (trades_df : option DataFrame) : list Trade :=
  match trades_df with
  | Some df => if empty df || lacks_essential df then [] else rows df
  | None => []
  end.

(** The rows a call has added to a table that held [before] rows. *)
Definition added {A : Type} (before after : list A) : list A :=
  drop (length before) after.

(** [ORDER BY timestamp DESC] read strictly: no two rows in a row with the
    same timestamp. *)
Definition strictly_later_first (r1 r2 : TradeRow) : Prop :=
  text_lt (r_timestamp r2) (r_timestamp r1).

Global Instance strictly_later_first_dec : RelDecision strictly_later_first.
Proof. intros r1 r2. unfold strictly_later_first, text_lt. apply _. Defined.

(** ** Sample data *)

(** 2024-01-01T00:00:00, in microseconds. *)
Definition new_year_2024 : datetime := 1704067200000000.

Definition day_ns : Z := 86400000000000.

Definition sample_trade (age_ns : Z) (side : string) (value pnl : Q) : Trade :=
  {| t_timestamp := to_Timestamp new_year_2024 - age_ns;
     t_coin := "HYPE"; t_side := side;
     t_size := 1; t_price := value; t_fee := 0;
     t_value_usd := value; t_pnl := pnl |}.

Definition fill_columns : list string :=
  ["timestamp"; "coin"; "side"; "size"; "price"; "fee"; "value_usd"].

(** A buy of 100 and a sell of 150, both within the last day. *)
Definition sample_fills : DataFrame :=
  {| columns := fill_columns;
     rows := [ sample_trade 3600000000000 "buy" 100 0;
               sample_trade 1800000000000 "sell" 150 0 ] |}.

(** A frame with the columns of a fill and no row. *)
Definition no_fills : DataFrame :=
  {| columns := fill_columns; rows := [] |}.

(** Two trades with a [pnl] column, the first older than 9999 days. *)
Definition old_and_new_pnl : DataFrame :=
  {| columns := "pnl" :: fill_columns;
     rows := [ sample_trade (10000 * day_ns) "sell" 20 5;
               sample_trade day_ns "sell" 30 7 ] |}.

(** Two recent trades with a [pnl] column. *)
Definition recent_pnl : DataFrame :=
  {| columns := "pnl" :: fill_columns;
     rows := [ sample_trade (2 * day_ns) "sell" 20 5;
               sample_trade day_ns "buy" 30 (-7) ] |}.

(** One trade, three days old, whose value is negative. *)
Definition negative_fill : DataFrame :=
  {| columns := fill_columns;
     rows := [ sample_trade (3 * day_ns) "sell" (-10) 0 ] |}.

Definition empty_db : Connection :=
  {| balances := []; balances_seq := 0; trades := []; trades_seq := 0 |}.

(** [float()] on the strings of the samples. *)
Definition sample_float (s : string) : result float :=
  default (Raise ValueError)
    (({[ "10" := Ok (Finite 10); "0.0505" := Ok (Finite 0.0505);
         "inf" := Ok PosInf; "nan" := Ok NaN ]} : gmap string (result float)) !! s).

Definition hype_10 : Balance :=
  {| bal_coin := Some "HYPE"; bal_total := Some (PyStr "10") |}.

(** A total of 1e400, which [response.json()] decodes to inf. *)
Definition hype_inf : Balance :=
  {| bal_coin := Some "HYPE"; bal_total := Some (PyFloat PosInf) |}.

(** A total of [null]. *)
Definition hype_null : Balance :=
  {| bal_coin := Some "HYPE"; bal_total := Some PyNone |}.

Definition hype_price : gmap string Q := {[ "HYPE" := 3.45%Q ]}.

(** The same price, as the float the store multiplies with. *)
Definition hype_quote : gmap string float := {[ "HYPE" := Finite 3.45 ]}.

(** 2024-01-02T00:00:00 *)
Definition next_day : datetime := new_year_2024 + timedelta 1.

(** The database after a first refresh of wallet 0xABC on new year's day. *)
Definition first_snapshot : Connection :=
  (store_wallet_data sample_float new_year_2024 empty_db "0xABC" [hype_10]
     hype_quote (Some sample_fills)).1.

(** The balance row of that refresh. *)
Definition hype_row : BalanceRow :=
  {| b_id := 1; b_wallet := "0xABC"; b_timestamp := "2024-01-01T00:00:00";
     b_coin := "HYPE"; b_amount := Finite 10; b_price := Some (Finite 3.45);
     b_value_usd := Some (float_mul (Finite 10) (Finite 3.45)) |}.

(** The database after a second refresh, one day later, which fetches the
    same fills again. *)
Definition second_snapshot : Connection :=
  (store_wallet_data sample_float next_day first_snapshot "0xABC" [hype_10]
     hype_quote (Some sample_fills)).1.

(** * The rest of the store and of the metric engine *)

(** ** The calendar behind [isoformat] *)

(** The pieces of [civil_from_days]: the year of the 400-year era a day
    falls in, the first day of such a year, the day of the year, and the
    month (counted from March) and day of the month of a day of the year. *)
Definition year_of_era (doe : Z) : Z :=
  (doe - doe / 1460 + doe / 36524 - doe / 146096) / 365.

Definition year_start (y : Z) : Z := 365 * y + y / 4 - y / 100.

Definition day_of_year (doe : Z) : Z := doe - year_start (year_of_era doe).

Definition month_index (doy : Z) : Z := (5 * doy + 2) / 153.

Definition month_start (mp : Z) : Z := (153 * mp + 2) / 5.

Definition day_of_month (doy : Z) : Z := doy - month_start (month_index doy) + 1.

Definition month_number (mp : Z) : Z := if mp <? 10 then mp + 3 else mp - 9.

(** The order of dates: by year, then month, then day. *)
Definition date_lt (c1 c2 : Z * Z * Z) : Prop :=
  let '(y1, m1, d1) := c1 in
  let '(y2, m2, d2) := c2 in
  y1 < y2 ∨ (y1 = y2 ∧ (m1 < m2 ∨ (m1 = m2 ∧ d1 < d2))).

(** [datetime.min] and [datetime.max]: 0001-01-01T00:00:00 and
    9999-12-31T23:59:59.999999. *)
Definition datetime_min : datetime := -62135596800000000.

Definition datetime_max : datetime := 253402300799999999.

(** A value that a Python [datetime] can hold. *)
Definition valid_datetime (d : datetime) : Prop :=
  datetime_min <= d <= datetime_max.

(** A [Timestamp] within the years of a [datetime]; the pandas range
    (1677 to 2262) lies inside. *)
Definition valid_Timestamp (t : Timestamp) : Prop :=
  to_Timestamp datetime_min <= t <= to_Timestamp datetime_max + 999.

(** The fraction of a second that [Timestamp.isoformat()] prints. *)
Definition fraction_text (ns : Z) : string :=
  if ns mod 1000 =? 0
  then if ns / 1000 =? 0 then "" else "." +:+ zfill 6 (ns / 1000)
  else "." +:+ zfill 9 ns.

(** ** Snapshot store: history *)

(** [ORDER BY timestamp]: the row with the earlier timestamp first.  As for
    [later_first], [merge_sort] fixes the order among equal timestamps. *)
Definition earlier_first (b1 b2 : BalanceRow) : Prop :=
  String.le (b_timestamp b1) (b_timestamp b2).

Global Instance earlier_first_dec : RelDecision earlier_first.
Proof. intros b1 b2. unfold earlier_first. apply _. Defined.

(** [now - timedelta(days=days)] for a whole number of days: [timedelta]
    takes days of at most nine digits, and the difference has to be a date
    of the years 1 to 9999. *)
Definition days_ago (now : datetime) (days : Z) : result datetime :=
  if Z.abs days <=? 999999999 then
    let d := now - timedelta days in
    if (datetime_min <=? d) && (d <=? datetime_max) then Ok d
    else Raise OverflowError
  else Raise OverflowError.

Definition get_historical_balances (now : datetime) (conn : Connection)
    (wallet : option string) (days : Z) : result (list BalanceRow) :=
  start ← days_ago now days;
  let start_date := datetime_isoformat start in
  let selected :=
    match truthy wallet with
    | Some w =>
        List.filter
          (λ b, String.eqb (b_wallet b) w && String.leb start_date (b_timestamp b))
          (balances conn)
    | None =>
        List.filter (λ b, String.leb start_date (b_timestamp b)) (balances conn)
    end in
  Ok (merge_sort earlier_first selected).

(** ** Notions of the store *)

(** Every row of the table was stamped by a clock reading before [now]. *)
Definition stamped_before (now : datetime) (table : list BalanceRow) : Prop :=
  Forall
    (λ b, ∃ d, valid_datetime d ∧ d < now ∧ b_timestamp b = datetime_isoformat d)
    table.

(** The keys of a table are distinct and none is above the last key the
    table has handed out. *)
Definition keys_ok (ids : list Z) (seq : Z) : Prop :=
  NoDup ids ∧ Forall (λ id, id <= seq) ids.

Definition primary_keys_ok (conn : Connection) : Prop :=
  keys_ok (b_id <$> balances conn) (balances_seq conn) ∧
  keys_ok (r_id <$> trades conn) (trades_seq conn).

(** The rows of a wallet in the trades table, or all rows. *)
Definition trades_of (wallet : option string) (conn : Connection) : list TradeRow :=
  match truthy wallet with
  | Some w => List.filter (λ r, String.eqb (r_wallet r) w) (trades conn)
  | None => trades conn
  end.



(** ** Notions of the metric engine *)

(** The total that [calculate_pnl] reports for the trades [l] of a frame:
    the sum of the [pnl] column when the frame has one, and sells minus buys
    otherwise. *)
Definition pnl_total (df : DataFrame) (l : list Trade) : Q :=
  if has_column "pnl" df then Qsum (t_pnl <$> l)
  else (Qsum (t_value_usd <$> on_side "sell" l)
        - Qsum (t_value_usd <$> on_side "buy" l))%Q.

(** The percentage that [calculate_pnl] reports for a total and the sum of
    the traded values. *)
Definition pnl_percentage (total_pnl traded : Q) : Q :=
  if Qpositive (traded / 2) then (total_pnl / (traded / 2) * 100)%Q else 0%Q.

(** * Properties *)

(** ** The adapter never raises *)

(** Whatever the network does, [get_token_balances] returns a value. *)
Lemma get_token_balances_returns requests_post wallet api_endpoint :
  ∃ v, get_token_balances requests_post wallet api_endpoint = Ok v.
Proof.
  unfold get_token_balances.
  destruct (_ ≫= _) as [a|e]; simpl; eauto.
Qed.

(** A decoded body that is not an object with a ["balances"] key gives the
    demo data as well. *)
Lemma get_token_balances_not_dict requests_post wallet api_endpoint r data :
  requests_post api_endpoint wallet = Ok r →
  response_json r = Ok data →
  (∀ d, data ≠ JDict d) →
  get_token_balances requests_post wallet api_endpoint = Ok demo_balances.
Proof.
  intros Hpost Hjson Hnd. unfold get_token_balances.
  rewrite Hpost. simpl. rewrite Hjson. simpl.
  destruct data as [| b | q | s | l | d]; simpl; try done.
  - by destruct (is_substring "balances" s).
  - by destruct (existsb (is_JStr "balances") l).
  - by destruct (Hnd d).
Qed.

(** C8: when the balance fetch fails (the request raises, the body does not
    decode, or the decoded object has no ["balances"] key),
    [get_token_balances] does not raise and returns the fixed demo data
    HYPE 0.0505, USDC 0.0000, USDT 0.0010, for every wallet address. *)
Theorem get_token_balances_fallback requests_post wallet api_endpoint :
  fetch_fails (requests_post api_endpoint wallet) →
  get_token_balances requests_post wallet api_endpoint = Ok demo_balances.
Proof.
  intros Hfail. unfold get_token_balances.
  inversion Hfail as [e He | r e Hjson Hr | r d Hjson Hkey Hr]; simpl.
  - done.
  - by rewrite Hjson.
  - rewrite Hjson. simpl. by rewrite Hkey.
Qed.

Lemma get_token_balances_fallback_witness :
  fetch_fails (Raise ConnectionError) ∧
  get_token_balances (λ _ _, Raise ConnectionError)
    "0xABC" "https://api.hyperliquid.xyz/info" = Ok demo_balances.
Proof.
  split; [constructor|].
  apply (get_token_balances_fallback (λ _ _, Raise ConnectionError)).
  constructor.
Defined.

(** The live path: an object with a ["balances"] key is passed through. *)
Lemma get_token_balances_live requests_post wallet api_endpoint r d v :
  requests_post api_endpoint wallet = Ok r →
  response_json r = Ok (JDict d) →
  d !! "balances" = Some v →
  get_token_balances requests_post wallet api_endpoint = Ok v.
Proof.
  intros Hpost Hjson Hkey. unfold get_token_balances.
  rewrite Hpost. simpl. rewrite Hjson. simpl. by rewrite Hkey.
Qed.

(** ** Portfolio value *)





(** Zero does not round out of range. *)
Lemma to_float_zero (q : Q) : (q == 0)%Q → to_float q = Finite q.
Proof.
  intros Hq. unfold to_float.
  destruct (Qle_bool (inject_Z float_int_limit) q) eqn:Hhigh.
  { apply Qle_bool_iff in Hhigh. rewrite Hq in Hhigh. vm_compute in Hhigh.
    by destruct Hhigh. }
  destruct (Qle_bool q (inject_Z (- float_int_limit))) eqn:Hlow; [|done].
  apply Qle_bool_iff in Hlow. rewrite Hq in Hlow. vm_compute in Hlow.
  by destruct Hlow.
Qed.

Lemma Qle_bool_proper (x x' y y' : Q) :
  (x == x')%Q → (y == y')%Q → Qle_bool x y = Qle_bool x' y'.
Proof.
  intros Hx Hy. apply eq_true_iff_eq. by rewrite !Qle_bool_iff, Hx, Hy.
Qed.

(** Adding zero to a float in range leaves it in range. *)
Lemma to_float_plus_zero (value zero : Q) :
  (zero == 0)%Q → to_float value = Finite value →
  to_float (value + zero) = Finite (value + zero).
Proof.
  intros Hzero. unfold to_float.
  rewrite (Qle_bool_proper _ (inject_Z float_int_limit) (value + zero) value),
    (Qle_bool_proper (value + zero) value _ (inject_Z (- float_int_limit)));
    [|first [reflexivity | rewrite Hzero; ring]..].
  by repeat destruct (Qle_bool _ _).
Qed.





(** A total that [float()] rejects makes the function raise, whatever the
    price map: [TypeError] for [null], [ValueError] for a string that is no
    number. *)
Lemma calculate_portfolio_value_raises float_of_string prices :
  calculate_portfolio_value float_of_string [hype_null] prices = Raise TypeError.
Proof. reflexivity. Qed.

Lemma calculate_portfolio_value_raises_on_string prices :
  calculate_portfolio_value sample_float
    [ {| bal_coin := Some "HYPE"; bal_total := Some (PyStr "n/a") |} ] prices
  = Raise ValueError.
Proof. reflexivity. Qed.

(** Once a total is rejected, the entries after it are not read. *)
Lemma calculate_portfolio_value_stops float_of_string balances rest prices e :
  calculate_portfolio_value float_of_string balances prices = Raise e →
  calculate_portfolio_value float_of_string (balances ++ rest) prices = Raise e.
Proof.
  unfold calculate_portfolio_value. rewrite fold_left_app. intros ->.
  by induction rest.
Qed.

(** A coin that the price map does not hold adds nothing to a finite
    value, when its total is finite. *)
Lemma calculate_portfolio_value_missing_coin float_of_string balances prices
    coin total (q value : Q) :
  prices !! coin = None →
  py_float float_of_string (default (PyInt 0) total) = Ok (Finite q) →
  calculate_portfolio_value float_of_string balances prices = Ok (Finite value) →
  to_float value = Finite value →
  ∃ value',
    calculate_portfolio_value float_of_string
      (balances ++ [ {| bal_coin := Some coin; bal_total := total |} ]) prices
    = Ok (Finite value') ∧
    (value' == value)%Q.
Proof.
  intros Hnone Hq Hvalue Hrange. unfold calculate_portfolio_value in *.
  rewrite fold_left_app, Hvalue. cbn [fold_left bal_coin bal_total from_option].
  unfold mbind, result_bind. cbn [id]. rewrite Hq, Hnone.
  cbn [from_option float_mul]. rewrite (to_float_zero (q * 0)) by ring.
  cbn [float_add]. rewrite (to_float_plus_zero value (q * 0)) by (done || ring).
  eexists. split; [reflexivity|]. ring.
Qed.

Example portfolio_value_scenario :
  calculate_portfolio_value sample_float [hype_10] hype_quote
    = Ok (Finite (0 + 10 * 3.45)).
Proof. reflexivity. Qed.

(** ** Time windows *)

Lemma period_days_24_hours : period_days "24 hours" = 1.
Proof. reflexivity. Qed.

Lemma period_days_7_days : period_days "7 days" = 7.
Proof. reflexivity. Qed.

Lemma period_days_30_days : period_days "30 days" = 30.
Proof. reflexivity. Qed.

Lemma period_days_All_time : period_days "All time" = 9999.
Proof. reflexivity. Qed.

Lemma period_days_unknown (label : string) :
  label ∉ period_labels → period_days label = 30.
Proof.
  intros Hout. unfold period_days, period_table.
  rewrite !lookup_insert_ne, lookup_singleton_ne; [done|..];
    intros <-; apply Hout; unfold period_labels; set_solver.
Qed.

(** Every label maps to one of the four windows. *)
Lemma period_days_cases (label : string) :
  period_days label ∈ [1; 7; 30; 9999].
Proof.
  unfold period_days, period_table.
  destruct (decide (label = "24 hours")) as [->|H1]; [set_solver|].
  destruct (decide (label = "7 days")) as [->|H2]; [set_solver|].
  destruct (decide (label = "30 days")) as [->|H3]; [set_solver|].
  destruct (decide (label = "All time")) as [->|H4]; [set_solver|].
  rewrite !lookup_insert_ne, lookup_singleton_ne by done. set_solver.
Qed.

(** C7: with a label that the period table does not know (such as
    ["whenever"]), [calculate_pnl] and [calculate_volume] return what they
    return with ["30 days"], for every trade set and price map. *)
Theorem unknown_period_is_30_days now (trades_df : DataFrame)
    (prices : gmap string Q) (label : string) :
  label ∉ period_labels →
  calculate_pnl now trades_df prices label
    = calculate_pnl now trades_df prices "30 days" ∧
  calculate_volume now trades_df label
    = calculate_volume now trades_df "30 days".
Proof.
  intros Hout. unfold calculate_pnl, calculate_volume.
  by rewrite (period_days_unknown label Hout), period_days_30_days.
Qed.

Lemma unknown_period_is_30_days_witness :
("whenever" ∉ period_labels) ∧
  calculate_pnl new_year_2024 sample_fills hype_price "whenever"
    = calculate_pnl new_year_2024 sample_fills hype_price "30 days" ∧
  calculate_volume new_year_2024 sample_fills "whenever"
    = calculate_volume new_year_2024 sample_fills "30 days".
Proof.
  split; [compute_done|].
  apply (unknown_period_is_30_days new_year_2024 sample_fills hype_price "whenever").
  compute_done.
Defined.

(** ** Empty trade sets *)

Lemma empty_no_rows (df : DataFrame) : rows df = [] → empty df = true.
Proof.
  intros Hrows. unfold empty. rewrite Hrows.
  by rewrite (bool_decide_eq_true_2 ([] = [])), orb_true_r.
Qed.

Lemma empty_false (df : DataFrame) :
  empty df = false ↔ columns df ≠ [] ∧ rows df ≠ [].
Proof.
  unfold empty. rewrite orb_false_iff, !bool_decide_eq_false. tauto.
Qed.

(** C9: on an empty trade set [calculate_pnl] returns (0, 0) and
    [calculate_volume] returns 0, for every period label, and neither
    raises. *)
Theorem empty_trade_set_metrics now (trades_df : DataFrame)
    (prices : gmap string Q) (label : string) :
  empty trades_df = true →
  calculate_pnl now trades_df prices label = Ok (0%Q, 0%Q) ∧
  calculate_volume now trades_df label = Ok 0%Q.
Proof.
  intros Hempty. unfold calculate_pnl, calculate_volume.
  by rewrite Hempty.
Qed.

Lemma empty_trade_set_metrics_witness :
  empty no_fills = true ∧
  calculate_pnl new_year_2024 no_fills hype_price "7 days" = Ok (0%Q, 0%Q) ∧
  calculate_volume new_year_2024 no_fills "7 days" = Ok 0%Q.
Proof.
  split; [reflexivity|].
  apply (empty_trade_set_metrics new_year_2024 no_fills hype_price "7 days").
  reflexivity.
Defined.

(** ** Frames and windows *)

Lemma column_present {A : Type} label (field : Trade → A) df :
  has_column label df = true → column label field df = Ok (field <$> rows df).
Proof. intros Hcol. unfold column. by rewrite Hcol. Qed.

Lemma column_missing {A : Type} label (field : Trade → A) df :
  has_column label df = false → column label field df = Raise (KeyError label).
Proof. intros Hcol. unfold column. by rewrite Hcol. Qed.

Lemma has_column_select label keep df :
  has_column label (select keep df) = has_column label df.
Proof. reflexivity. Qed.

Lemma has_column_columns label df :
  has_column label df = true → columns df ≠ [].
Proof.
  unfold has_column. intros Hcol%bool_decide_eq_true Hnil.
  rewrite Hnil in Hcol. by apply elem_of_nil in Hcol.
Qed.

Lemma since_present start_date df :
  has_column "timestamp" df = true →
  since start_date df
    = Ok (select (λ t, to_Timestamp start_date <=? t_timestamp t) df).
Proof. intros Hcol. unfold since. by rewrite (column_present _ _ _ Hcol). Qed.

Lemma with_side_present label df :
  has_column "side" df = true →
  with_side label df = Ok (select (λ t, String.eqb (t_side t) label) df).
Proof. intros Hcol. unfold with_side. by rewrite (column_present _ _ _ Hcol). Qed.

Lemma empty_select keep df :
  columns df ≠ [] →
  empty (select keep df) = bool_decide (List.filter keep (rows df) = []).
Proof.
  intros Hcols. unfold empty. simpl.
  by rewrite (bool_decide_eq_false_2 _ Hcols).
Qed.

Lemma filter_all {A : Type} (keep : A → bool) (l : list A) :
  Forall (λ x, keep x = true) l → List.filter keep l = l.
Proof.
  induction 1 as [|x l Hx _ IH]; simpl; [done|]. by rewrite Hx, IH.
Qed.

Lemma select_all keep df :
  Forall (λ t, keep t = true) (rows df) → select keep df = df.
Proof.
  intros Hall. unfold select. rewrite (filter_all _ _ Hall). by destruct df.
Qed.

(** The sum over the rows a mask keeps is the sum over no row when the
    mask keeps none: the early [return 0] agrees with the sum. *)
Lemma Qsum_nil : Qsum [] = 0%Q.
Proof. reflexivity. Qed.

Lemma Qsum_cons x l : Qsum (x :: l) = (x + Qsum l)%Q.
Proof. reflexivity. Qed.

(** ** The guarded division *)

Lemma Qpositive_true (x : Q) : Qpositive x = true ↔ (0 < x)%Q.
Proof.
  unfold Qpositive. rewrite negb_true_iff.
  destruct (Qle_bool x 0) eqn:Hle.
  - apply Qle_bool_iff in Hle. split; [done|]. intros Hlt. lra.
  - split; [|done]. intros _. apply Qnot_le_lt. intros Hle'.
    apply Qle_bool_iff in Hle'. congruence.
Qed.

Lemma Qpositive_false (x : Q) : Qpositive x = false ↔ (x <= 0)%Q.
Proof.
  unfold Qpositive. rewrite negb_false_iff. apply Qle_bool_iff.
Qed.

(** Behind the guard [investment > 0] the division does not raise. *)
Lemma py_div_positive (x y : Q) : Qpositive y = true → py_div x y = Ok (x / y)%Q.
Proof.
  intros Hpos%Qpositive_true. unfold py_div.
  destruct (Qeq_bool y 0) eqn:Hzero; [|done].
  apply Qeq_bool_iff in Hzero. lra.
Qed.

Lemma percentage_guarded (total_pnl investment : Q) :
  (if Qpositive investment
   then py_div total_pnl investment ≫= λ ratio, Ok (ratio * 100)%Q
   else Ok 0%Q)
  = Ok (if Qpositive investment then (total_pnl / investment * 100)%Q else 0%Q).
Proof.
  destruct (Qpositive investment) eqn:Hpos; [|done].
  by rewrite (py_div_positive _ _ Hpos).
Qed.

(** ** P&L over ["All time"] *)

(** C2, as the code has it: for a non-empty trade set with [timestamp],
    [pnl] and [value_usd] columns whose trades are all at most 9999 days
    old, [calculate_pnl] over ["All time"] returns as total P&L the sum of
    the [pnl] column. *)
Theorem calculate_pnl_all_time now (trades_df : DataFrame) (prices : gmap string Q) :
  rows trades_df ≠ [] →
  has_column "timestamp" trades_df = true →
  has_column "pnl" trades_df = true →
  has_column "value_usd" trades_df = true →
  Forall (λ t, in_window now 9999 t = true) (rows trades_df) →
  ∃ pnl_percentage,
    calculate_pnl now trades_df prices "All time"
      = Ok (Qsum (t_pnl <$> rows trades_df), pnl_percentage).
Proof.
  intros Hrows Hts Hpnl Hvalue Hrecent.
  assert (empty trades_df = false) as Hne.
  { apply empty_false. eauto using has_column_columns. }
  unfold calculate_pnl. rewrite Hne, period_days_All_time.
  rewrite (since_present _ _ Hts). simpl.
  unfold in_window in Hrecent.
  rewrite (select_all _ _ Hrecent), Hne, Hpnl.
  rewrite (column_present _ t_pnl _ Hpnl). simpl.
  rewrite (column_present _ t_value_usd _ Hvalue). simpl.
  rewrite percentage_guarded. simpl. eauto.
Qed.

Lemma calculate_pnl_all_time_witness :
  ∃ pnl_percentage,
    calculate_pnl new_year_2024 recent_pnl hype_price "All time"
      = Ok (Qsum (t_pnl <$> rows recent_pnl), pnl_percentage).
Proof.
  apply (calculate_pnl_all_time new_year_2024 recent_pnl hype_price);
    [discriminate | reflexivity | reflexivity | reflexivity |].
  repeat constructor.
Defined.

(** C2, as stated, fails: a trade older than 9999 days is outside the
    ["All time"] window, and its [pnl] is left out of the total. *)
Lemma calculate_pnl_all_time_drops_old_trades :
  rows old_and_new_pnl ≠ [] ∧
  has_column "pnl" old_and_new_pnl = true ∧
  ∃ total_pnl pnl_percentage,
    calculate_pnl new_year_2024 old_and_new_pnl hype_price "All time"
      = Ok (total_pnl, pnl_percentage) ∧
    ¬ (total_pnl == Qsum (t_pnl <$> rows old_and_new_pnl))%Q.
Proof.
  split; [discriminate|]. split; [reflexivity|].
  eexists _, _. split; [vm_compute; reflexivity|].
  vm_compute. discriminate.
Qed.

(** Without a [value_usd] column the function raises even when the [pnl]
    column is there: the investment is computed in every case. *)
Lemma calculate_pnl_needs_value_usd now (trades_df : DataFrame) prices label :
  has_column "timestamp" trades_df = true →
  has_column "pnl" trades_df = true →
  has_column "value_usd" trades_df = false →
  window now label trades_df ≠ [] →
  calculate_pnl now trades_df prices label = Raise (KeyError "value_usd").
Proof.
  intros Hts Hpnl Hvalue Hwin.
  assert (columns trades_df ≠ []) as Hcols by eauto using has_column_columns.
  assert (empty trades_df = false) as Hne.
  { apply empty_false. split; [done|]. intros Hnil.
    apply Hwin. unfold window. by rewrite Hnil. }
  unfold calculate_pnl. rewrite Hne, (since_present _ _ Hts). simpl.
  rewrite (empty_select _ _ Hcols).
  rewrite bool_decide_eq_false_2 by exact Hwin.
  rewrite has_column_select, Hpnl.
  rewrite (column_present _ t_pnl); [|by rewrite has_column_select]. simpl.
  rewrite (column_missing _ t_value_usd); [done|by rewrite has_column_select].
Qed.

(** ** P&L percentage *)

(** The value of one side of the book: the guard on an empty selection
    returns what the sum returns. *)
Lemma side_value keep df :
  columns df ≠ [] →
  has_column "value_usd" df = true →
  (if negb (empty (select keep df))
   then column "value_usd" t_value_usd (select keep df) ≫= λ values, Ok (Qsum values)
   else Ok 0%Q)
  = Ok (Qsum (t_value_usd <$> List.filter keep (rows df))).
Proof.
  intros Hcols Hvalue. rewrite (empty_select _ _ Hcols).
  destruct (bool_decide_reflect (List.filter keep (rows df) = [])) as [Hnil|Hsome]; simpl.
  - by rewrite Hnil.
  - by rewrite column_present.
Qed.

(** What [calculate_pnl] returns on a frame without a [pnl] column that has
    a trade in the window. *)
Lemma calculate_pnl_estimate now (trades_df : DataFrame) (prices : gmap string Q) label :
  has_column "timestamp" trades_df = true →
  has_column "side" trades_df = true →
  has_column "value_usd" trades_df = true →
  has_column "pnl" trades_df = false →
  window now label trades_df ≠ [] →
  let period_trades := window now label trades_df in
  let total_pnl :=
    (Qsum (t_value_usd <$> on_side "sell" period_trades)
     - Qsum (t_value_usd <$> on_side "buy" period_trades))%Q in
  let investment := (Qsum (t_value_usd <$> period_trades) / 2)%Q in
  calculate_pnl now trades_df prices label
    = Ok (total_pnl,
          if Qpositive investment then (total_pnl / investment * 100)%Q else 0%Q).
Proof.
  intros Hts Hside Hvalue Hpnl Hwin. simpl.
  assert (columns trades_df ≠ []) as Hcols by eauto using has_column_columns.
  assert (empty trades_df = false) as Hne.
  { apply empty_false. split; [done|]. intros Hnil.
    apply Hwin. unfold window. by rewrite Hnil. }
  unfold calculate_pnl. rewrite Hne, (since_present _ _ Hts). simpl.
  rewrite (empty_select _ _ Hcols).
  rewrite bool_decide_eq_false_2 by exact Hwin.
  rewrite has_column_select, Hpnl.
  rewrite !with_side_present by (by rewrite has_column_select).
  simpl.
  rewrite !side_value by done. simpl.
  rewrite column_present by done. simpl.
  by rewrite percentage_guarded.
Qed.

(** C4, as the code has it: for a trade set with [timestamp], [side] and
    [value_usd] columns and no [pnl] column that has a trade in the window,
    [calculate_pnl] does not raise; its percentage is
    total_pnl / (sum of value_usd in the window / 2) * 100 when that
    denominator is positive, and 0 when the denominator is zero or
    negative. *)
Theorem calculate_pnl_percentage now (trades_df : DataFrame)
    (prices : gmap string Q) (label : string) :
  has_column "timestamp" trades_df = true →
  has_column "side" trades_df = true →
  has_column "value_usd" trades_df = true →
  has_column "pnl" trades_df = false →
  window now label trades_df ≠ [] →
  let investment := (Qsum (t_value_usd <$> window now label trades_df) / 2)%Q in
  ∃ total_pnl pnl_percentage,
    calculate_pnl now trades_df prices label = Ok (total_pnl, pnl_percentage) ∧
    ((0 < investment)%Q → pnl_percentage = (total_pnl / investment * 100)%Q) ∧
    ((investment <= 0)%Q → pnl_percentage = 0%Q).
Proof.
  intros Hts Hside Hvalue Hpnl Hwin investment.
  eexists _, _. split.
  - by apply calculate_pnl_estimate.
  - fold investment. split.
    + intros Hpos%Qpositive_true. by rewrite Hpos.
    + intros Hneg%Qpositive_false. by rewrite Hneg.
Qed.

Lemma calculate_pnl_percentage_witness :
  ∃ total_pnl pnl_percentage,
    calculate_pnl new_year_2024 sample_fills hype_price "24 hours"
      = Ok (total_pnl, pnl_percentage) ∧
    ((0 < Qsum (t_value_usd <$> window new_year_2024 "24 hours" sample_fills) / 2)%Q →
     pnl_percentage
       = (total_pnl
          / (Qsum (t_value_usd <$> window new_year_2024 "24 hours" sample_fills) / 2)
          * 100)%Q) ∧
    ((Qsum (t_value_usd <$> window new_year_2024 "24 hours" sample_fills) / 2 <= 0)%Q →
     pnl_percentage = 0%Q).
Proof.
  apply (calculate_pnl_percentage new_year_2024 sample_fills hype_price "24 hours");
    [reflexivity | reflexivity | reflexivity | reflexivity |].
  vm_compute. discriminate.
Defined.

(** The scenario of the specification: a buy of 100 and a sell of 150 give
    a P&L of 50 and a percentage of 40. *)
Example calculate_pnl_scenario :
  ∃ total_pnl pnl_percentage,
    calculate_pnl new_year_2024 sample_fills hype_price "24 hours"
      = Ok (total_pnl, pnl_percentage) ∧
    (total_pnl == 50)%Q ∧ (pnl_percentage == 40)%Q.
Proof. eexists _, _. split; [vm_compute; reflexivity|]. split; reflexivity. Qed.

(** C4, as stated, fails where the denominator is negative: the
    percentage is 0 and not the quotient. *)
Lemma calculate_pnl_percentage_negative_investment :
  has_column "pnl" negative_fill = false ∧
  window new_year_2024 "7 days" negative_fill ≠ [] ∧
  let investment :=
    (Qsum (t_value_usd <$> window new_year_2024 "7 days" negative_fill) / 2)%Q in
  ¬ (investment == 0)%Q ∧
  ∃ total_pnl pnl_percentage,
    calculate_pnl new_year_2024 negative_fill hype_price "7 days"
      = Ok (total_pnl, pnl_percentage) ∧
    ¬ (pnl_percentage == total_pnl / investment * 100)%Q.
Proof.
  split; [reflexivity|]. split; [vm_compute; discriminate|].
  split; [vm_compute; discriminate|].
  eexists _, _. split; [vm_compute; reflexivity|].
  vm_compute. discriminate.
Qed.

(** ** Volume *)

Lemma zip_with_fields (l : list Trade) :
  zip_with Qmult (t_size <$> l) (t_price <$> l)
    = (λ t, (t_size t * t_price t)%Q) <$> l.
Proof. induction l as [|t l IH]; [done|]. cbn. f_equal. exact IH. Qed.

Lemma Qsum_zero (l : list Trade) : Qsum ((λ _, 0%Q) <$> l) = 0%Q.
Proof.
  induction l as [|t l IH]; [done|].
  change (Qsum ((λ _, 0%Q) <$> t :: l)) with (0 + Qsum ((λ _ : Trade, 0%Q) <$> l))%Q.
  by rewrite IH.
Qed.

(** What [calculate_volume] returns on a frame with a [timestamp] column:
    the sum of the traded values in the window. *)
Lemma calculate_volume_window now (trades_df : DataFrame) label :
  has_column "timestamp" trades_df = true →
  calculate_volume now trades_df label
    = Ok (Qsum (traded_value trades_df <$> window now label trades_df)).
Proof.
  intros Hts.
  assert (columns trades_df ≠ []) as Hcols by eauto using has_column_columns.
  unfold calculate_volume, window.
  destruct (empty trades_df) eqn:Hempty.
  { unfold empty in Hempty. rewrite (bool_decide_eq_false_2 _ Hcols) in Hempty.
    simpl in Hempty. apply bool_decide_eq_true in Hempty. by rewrite Hempty. }
  rewrite (since_present _ _ Hts). simpl.
  rewrite (empty_select _ _ Hcols).
  fold (in_window now (period_days label)).
  destruct (bool_decide_reflect
              (List.filter (in_window now (period_days label)) (rows trades_df) = []))
    as [Hnil|Hsome].
  { by rewrite Hnil. }
  rewrite !has_column_select. unfold traded_value.
  destruct (has_column "value_usd" trades_df) eqn:Hvalue.
  { rewrite column_present by done. done. }
  destruct (has_column "size" trades_df) eqn:Hsize;
    destruct (has_column "price" trades_df) eqn:Hprice; cbn [andb].
  - rewrite !column_present by done. unfold mbind, result_bind.
    by rewrite zip_with_fields.
  - by rewrite Qsum_zero.
  - by rewrite Qsum_zero.
  - by rewrite Qsum_zero.
Qed.

Lemma in_window_widen now (days1 days2 : Z) (t : Trade) :
  days1 ≤ days2 → in_window now days1 t = true → in_window now days2 t = true.
Proof.
  unfold in_window, to_Timestamp, timedelta. rewrite !Z.leb_le. lia.
Qed.

(** A sum of non-negative values grows with the mask. *)
Lemma Qsum_filter_mono (value : Trade → Q) (keep1 keep2 : Trade → bool) (l : list Trade) :
  Forall (λ t, (0 <= value t)%Q) l →
  (∀ t, keep1 t = true → keep2 t = true) →
  (Qsum (value <$> List.filter keep1 l) <= Qsum (value <$> List.filter keep2 l))%Q.
Proof.
  intros Hpos Hsub. induction Hpos as [|t l Ht _ IH]; [apply Qle_refl|].
  cbn [List.filter]. destruct (keep1 t) eqn:H1.
  - rewrite (Hsub t H1), !fmap_cons, !Qsum_cons. lra.
  - destruct (keep2 t); [rewrite fmap_cons, Qsum_cons|]; lra.
Qed.

Lemma window_volume_mono now (trades_df : DataFrame) (label1 label2 : string) :
  Forall (λ t, (0 <= traded_value trades_df t)%Q) (rows trades_df) →
  period_days label1 ≤ period_days label2 →
  (Qsum (traded_value trades_df <$> window now label1 trades_df)
   <= Qsum (traded_value trades_df <$> window now label2 trades_df))%Q.
Proof.
  intros Hpos Hdays. apply Qsum_filter_mono; [done|].
  intros t. by apply in_window_widen.
Qed.

(** C3, as the code has it: for a trade set with a [timestamp] column whose
    traded values ([value_usd], or [size * price] without that column) are
    all non-negative, the volume does not decrease as the period widens:
    24 hours, 7 days, 30 days, All time. *)
Theorem calculate_volume_monotone now (trades_df : DataFrame) :
  has_column "timestamp" trades_df = true →
  Forall (λ t, (0 <= traded_value trades_df t)%Q) (rows trades_df) →
  ∃ v24 v7 v30 vall,
    calculate_volume now trades_df "24 hours" = Ok v24 ∧
    calculate_volume now trades_df "7 days" = Ok v7 ∧
    calculate_volume now trades_df "30 days" = Ok v30 ∧
    calculate_volume now trades_df "All time" = Ok vall ∧
    (v24 <= v7)%Q ∧ (v7 <= v30)%Q ∧ (v30 <= vall)%Q.
Proof.
  intros Hts Hpos. eexists _, _, _, _.
  repeat (split; [by apply calculate_volume_window|]).
  repeat split; apply window_volume_mono; done.
Qed.

Lemma calculate_volume_monotone_witness :
  ∃ v24 v7 v30 vall,
    calculate_volume new_year_2024 old_and_new_pnl "24 hours" = Ok v24 ∧
    calculate_volume new_year_2024 old_and_new_pnl "7 days" = Ok v7 ∧
    calculate_volume new_year_2024 old_and_new_pnl "30 days" = Ok v30 ∧
    calculate_volume new_year_2024 old_and_new_pnl "All time" = Ok vall ∧
    (v24 <= v7)%Q ∧ (v7 <= v30)%Q ∧ (v30 <= vall)%Q.
Proof.
  apply (calculate_volume_monotone new_year_2024 old_and_new_pnl); [reflexivity|].
  repeat constructor; vm_compute; discriminate.
Defined.

(** C3, as stated, fails on a trade of negative value: three days old, it
    is outside the 24-hour window and inside the 7-day one, and the volume
    drops from 0 to -10. *)
Lemma calculate_volume_negative_value :
  ∃ v24 v7,
    calculate_volume new_year_2024 negative_fill "24 hours" = Ok v24 ∧
    calculate_volume new_year_2024 negative_fill "7 days" = Ok v7 ∧
    ¬ (v24 <= v7)%Q.
Proof.
  eexists _, _. split; [vm_compute; reflexivity|].
  split; [vm_compute; reflexivity|].
  vm_compute. intros H. by apply H.
Qed.

(** ** TEXT order *)

Lemma text_lt_not_le (a b : string) : text_lt a b → String.leb b a = false.
Proof.
  unfold text_lt, String.ltb, String.leb. rewrite (String.compare_antisym b a).
  by destruct (String.compare a b).
Qed.

Lemma text_lt_irrefl (a : string) : ¬ text_lt a a.
Proof.
  intros Hlt. pose proof (text_lt_not_le _ _ Hlt) as Hle.
  destruct (String.leb_total a a) as [H|H]; congruence.
Qed.

Lemma text_max_cases (a b : string) :
  (text_max a b = a ∧ String.le b a) ∨ (text_max a b = b ∧ String.le a b).
Proof.
  unfold text_max. destruct (String.leb a b) eqn:Hle.
  - right. split; [done|]. unfold String.le. by rewrite Hle.
  - left. split; [done|]. destruct (total String.le a b) as [H|H]; [|done].
    unfold String.le in H. by rewrite Hle in H.
Qed.

Lemma sql_max_cons (v : string) (values : list string) :
  sql_max (v :: values) = Some (from_option (text_max v) v (sql_max values)).
Proof. reflexivity. Qed.

Lemma sql_max_is_Some (values : list string) :
  values ≠ [] → is_Some (sql_max values).
Proof. destruct values; [done|]. rewrite sql_max_cons. eauto. Qed.

Lemma sql_max_elem_of (values : list string) (m : string) :
  sql_max values = Some m → m ∈ values.
Proof.
  revert m. induction values as [|v values IH]; intros m; [done|].
  rewrite sql_max_cons. intros [= <-].
  destruct (sql_max values) as [m'|]; simpl; [|set_solver].
  destruct (text_max_cases v m') as [[-> _]|[-> _]]; [set_solver|].
  apply elem_of_cons. right. by apply IH.
Qed.

Lemma sql_max_upper_bound (values : list string) (m : string) :
  sql_max values = Some m → Forall (λ v, String.le v m) values.
Proof.
  revert m. induction values as [|v values IH]; intros m; [done|].
  rewrite sql_max_cons. intros [= <-].
  destruct (sql_max values) as [m'|] eqn:Hmax; simpl.
  - specialize (IH m' eq_refl).
    destruct (text_max_cases v m') as [[-> Hle]|[-> Hle]]; constructor; try done.
    eapply Forall_impl; [exact IH|]. intros x Hx. simpl in Hx. by etrans.
  - destruct values; [|by rewrite sql_max_cons in Hmax]. by repeat constructor.
Qed.

(** The maximum of timestamps that are all strictly before [now] or equal
    to it, with one of them equal to it, is [now]. *)
Lemma sql_max_latest (values : list string) (now : string) :
  Forall (λ v, text_lt v now ∨ v = now) values →
  now ∈ values →
  sql_max values = Some now.
Proof.
  intros Hall Hin.
  destruct (sql_max_is_Some values) as [m Hm]; [by intros ->; set_solver|].
  rewrite Hm. f_equal.
  pose proof (sql_max_elem_of _ _ Hm) as Hmin.
  pose proof (sql_max_upper_bound _ _ Hm) as Hub.
  rewrite Forall_forall in Hall, Hub.
  destruct (Hall m Hmin) as [Hlt|]; [|done].
  specialize (Hub now Hin). unfold String.le in Hub.
  by rewrite (text_lt_not_le _ _ Hlt) in Hub.
Qed.

(** ** Timestamps are never empty *)

Lemma append_nonempty_l (a b : string) : a ≠ "" → a +:+ b ≠ "".
Proof. by destruct a. Qed.

Lemma append_nonempty_r (a b : string) : b ≠ "" → a +:+ b ≠ "".
Proof. intros Hb. induction a; [done|]. discriminate. Qed.

Lemma zfill_nonempty (w : nat) (n : Z) : zfill (S w) n ≠ "".
Proof. simpl. by apply append_nonempty_r. Qed.

Lemma isoformat_seconds_nonempty (secs : Z) : isoformat_seconds secs ≠ "".
Proof.
  unfold isoformat_seconds.
  destruct (civil_from_days (secs / 86400)) as [[y m] d].
  apply append_nonempty_l, zfill_nonempty.
Qed.

Lemma datetime_isoformat_nonempty (d : datetime) : datetime_isoformat d ≠ "".
Proof. apply append_nonempty_l, isoformat_seconds_nonempty. Qed.

Example datetime_isoformat_new_year :
  datetime_isoformat new_year_2024 = "2024-01-01T00:00:00".
Proof. reflexivity. Qed.

Example datetime_isoformat_microseconds :
  datetime_isoformat (new_year_2024 + 1500) = "2024-01-01T00:00:00.001500".
Proof. reflexivity. Qed.

Example Timestamp_isoformat_nanoseconds :
  Timestamp_isoformat (to_Timestamp new_year_2024 + 7)
    = "2024-01-01T00:00:00.000000007".
Proof. reflexivity. Qed.

(** ** Storing a snapshot *)

Lemma added_app {A : Type} (before new : list A) : added before (before ++ new) = new.
Proof. apply drop_app_length. Qed.

(** The loop over the balance list appends one row per entry it gets
    through, in order, and leaves the trades alone; it gets through all of
    them unless it raises. *)
Lemma store_balances_rows float_of_string timestamp wallet prices entries conn :
  let loop := store_balances float_of_string timestamp wallet prices entries conn in
  ∃ new,
    balances loop.1 = balances conn ++ new ∧
    trades loop.1 = trades conn ∧
    Forall2 (inserts_balance float_of_string wallet timestamp prices)
      (take (length new) entries) new ∧
    match loop.2 with
    | Ok _ => length new = length entries
    | Raise _ => (length new < length entries)%nat
    end.
Proof.
  revert conn. induction entries as [|entry entries IH]; intros conn.
  - exists []. simpl. rewrite app_nil_r. by repeat split.
  - cbn [store_balances]. cbv zeta.
    destruct (py_float float_of_string (default (PyInt 0) (bal_total entry)))
      as [amount|e] eqn:Hamount.
    + unfold insert_balance.
      destruct (sql_real amount) as [stored|] eqn:Hstored.
      * assert (stored = amount) as -> by (by destruct amount; inversion Hstored).
        match goal with |- context [store_balances _ _ _ _ entries ?c] =>
          destruct (IH c) as (new & Hnew & Htrades & Hrows & Hend) end.
        eexists (_ :: new). split; [|split; [|split]].
        -- rewrite Hnew. simpl. by rewrite <- app_assoc.
        -- by rewrite Htrades.
        -- cbn [length take]. constructor; [|done]. by repeat split.
        -- cbn [length]. destruct (_.2); lia.
      * exists []. simpl. rewrite app_nil_r. repeat split; [constructor | lia].
    + exists []. simpl. rewrite app_nil_r. repeat split; [constructor | lia].
Qed.


(** The loop over the trades appends one row per stored trade, in order,
    and leaves the balances alone. *)
Lemma store_trades_rows wallet df conn :
  ∃ new,
    trades (store_trades wallet df conn) = trades conn ++ new ∧
    Forall2
      (λ t r, r_wallet r = wallet ∧
              r_timestamp r = Timestamp_isoformat (t_timestamp t))
      (if lacks_essential df then [] else rows df) new ∧
    balances (store_trades wallet df conn) = balances conn.
Proof.
  unfold store_trades. destruct (lacks_essential df).
  - exists []. rewrite app_nil_r.
    induction (rows df) as [|t l IH]; [by repeat split|]. done.
  - revert conn. induction (rows df) as [|t l IH]; intros conn.
    + exists []. by rewrite app_nil_r.
    + cbn [fold_left].
      destruct (IH (insert_trade conn wallet (Timestamp_isoformat (t_timestamp t))
                      (t_coin t) (t_side t) (t_size t) (t_price t)
                      (if has_column "fee" df then t_fee t else 0%Q)
                      (if has_column "value_usd" df then t_value_usd t else 0%Q)))
        as (new & Hnew & Hrows & Hbal).
      eexists (_ :: new). split; [|split].
      * rewrite Hnew. simpl. by rewrite <- app_assoc.
      * by constructor.
      * by rewrite Hbal.
Qed.

(** What one call adds to the two tables: the balance rows of the entries
    it gets through and, unless it raises, the rows of the trades. *)
Lemma store_wallet_data_rows float_of_string now conn wallet entries prices trades_df :
  let call := store_wallet_data float_of_string now conn wallet entries prices trades_df in
  ∃ new_balances new_trades,
    balances call.1 = balances conn ++ new_balances ∧
    trades call.1 = trades conn ++ new_trades ∧
    Forall2 (inserts_balance float_of_string wallet (datetime_isoformat now) prices)
      (take (length new_balances) entries) new_balances ∧
    match call.2 with
    | Ok _ =>
        length new_balances = length entries ∧
        Forall2
          (λ t r, r_wallet r = wallet ∧
                  r_timestamp r = Timestamp_isoformat (t_timestamp t))
          (stored_trades trades_df) new_trades
    | Raise _ => (length new_balances < length entries)%nat ∧ new_trades = []
    end.
Proof.
  unfold store_wallet_data, stored_trades. cbv zeta.
  destruct (store_balances_rows float_of_string (datetime_isoformat now) wallet
              prices entries conn) as (new_b & Hbal & Htr & Hrows & Hend).
  destruct (store_balances float_of_string (datetime_isoformat now) wallet prices
              entries conn) as [conn1 [[]|e]]; simpl in *.
  - destruct trades_df as [df|]; [destruct (empty df); simpl|].
    + exists new_b, []. rewrite Htr, app_nil_r. by repeat split.
    + destruct (store_trades_rows wallet df conn1) as (new_t & Hnew & Htrades & Hsame).
      exists new_b, new_t. rewrite Hnew, Hsame, Htr. by repeat split.
    + exists new_b, []. rewrite Htr, app_nil_r. by repeat split.
  - exists new_b, []. rewrite Htr, app_nil_r. by repeat split.
Qed.



(** ** The latest balances *)

Lemma truthy_wallet (wallet : string) : wallet ≠ "" → truthy (Some wallet) = Some wallet.
Proof. intros Hne. simpl. by rewrite (proj2 (String.eqb_neq _ _) Hne). Qed.

Lemma of_wallet_app wallet (l1 l2 : list BalanceRow) :
  of_wallet wallet (l1 ++ l2) = of_wallet wallet l1 ++ of_wallet wallet l2.
Proof. apply List.filter_app. Qed.

Lemma of_wallet_all wallet (l : list BalanceRow) :
  Forall (λ b, b_wallet b = wallet) l → of_wallet wallet l = l.
Proof.
  intros Hall. apply filter_all. eapply Forall_impl; [exact Hall|].
  intros b ->. apply String.eqb_refl.
Qed.

Lemma filter_none {A : Type} (keep : A → bool) (l : list A) :
  Forall (λ x, keep x = false) l → List.filter keep l = [].
Proof. induction 1 as [|x l Hx _ IH]; simpl; [done|]. by rewrite Hx. Qed.

(** The latest rows of a wallet whose last snapshot sits at the end of the
    table, after rows of the wallet that are all strictly older. *)
Lemma get_latest_balances_snapshot conn wallet timestamp (old new : list BalanceRow) :
  wallet ≠ "" → timestamp ≠ "" → new ≠ [] →
  balances conn = old ++ new →
  Forall (λ b, b_wallet b = wallet → text_lt (b_timestamp b) timestamp) old →
  Forall (λ b, b_wallet b = wallet ∧ b_timestamp b = timestamp) new →
  get_latest_balances conn (Some wallet) = new.
Proof.
  intros Hwallet Hstamp Hnew Hbal Hold Hrows.
  unfold get_latest_balances. rewrite (truthy_wallet _ Hwallet), Hbal.
  rewrite (sql_max_latest _ timestamp).
  - rewrite (proj2 (String.eqb_neq _ _) Hstamp), List.filter_app.
    rewrite filter_none, filter_all; [done|..].
    + eapply Forall_impl; [exact Hrows|]. intros b [-> ->].
      by rewrite !String.eqb_refl.
    + eapply Forall_impl; [exact Hold|]. intros b Hb. simpl in Hb.
      destruct (String.eqb_spec (b_wallet b) wallet) as [Hw|]; [|done].
      destruct (String.eqb_spec (b_timestamp b) timestamp) as [Ht|]; [|done].
      specialize (Hb Hw). rewrite Ht in Hb. by apply text_lt_irrefl in Hb.
  - rewrite of_wallet_app, fmap_app. apply Forall_app. split.
    + apply Forall_fmap, Forall_forall. intros b Hb.
      apply list_elem_of_In, List.filter_In in Hb as [Hb Hw].
      apply String.eqb_eq in Hw. left.
      rewrite Forall_forall in Hold. apply Hold; [|done]. by apply list_elem_of_In.
    + apply Forall_fmap, Forall_forall. intros b Hb.
      apply list_elem_of_In, List.filter_In in Hb as [Hb _]. right.
      rewrite Forall_forall in Hrows. by apply Hrows, list_elem_of_In.
  - rewrite of_wallet_app, fmap_app. apply elem_of_app. right.
    destruct new as [|b new]; [done|]. apply Forall_cons in Hrows as [[Hw Ht] _].
    unfold of_wallet. cbn [List.filter]. rewrite Hw, String.eqb_refl, fmap_cons, Ht.
    apply elem_of_cons. by left.
Qed.




(** It fails as well for a total that is not a finite number.  A total of
    1e400 is the float inf; for a coin without a price the value is
    inf * 0, which is nan and is stored as NULL: the row reads back with
    [value_usd] [None], which does not equal amount * price. *)
Lemma store_inf_then_latest_balances :
  let call :=
    store_wallet_data sample_float next_day first_snapshot "0xABC" [hype_inf] ∅ None in
  call.2 = Ok () ∧
  ∃ row,
    get_latest_balances call.1 (Some "0xABC") = [row] ∧
    b_amount row = PosInf ∧
    b_price row = Some (Finite 0) ∧
    b_value_usd row = None ∧
    ¬ reads_as (b_value_usd row) (float_mul (b_amount row) (Finite 0)).
Proof.
  split; [reflexivity|]. eexists. split; [vm_compute; reflexivity|].
  repeat split. by intros (y & Hy & _).
Qed.

(** A total that is nan is refused by the [NOT NULL] column, and a total
    that [float()] rejects raises before any insert: the call raises and
    the latest balances are the rows of the snapshot before. *)
Lemma store_nan_then_latest_balances :
  let call :=
    store_wallet_data sample_float next_day first_snapshot "0xABC"
      [ {| bal_coin := Some "HYPE"; bal_total := Some (PyStr "nan") |} ]
      hype_quote None in
  call.2 = Raise IntegrityError ∧
  call.1 = first_snapshot.
Proof. split; reflexivity. Qed.

Lemma store_null_then_latest_balances float_of_string :
  let call :=
    store_wallet_data float_of_string next_day first_snapshot "0xABC"
      [hype_null] hype_quote None in
  call.2 = Raise TypeError ∧
  call.1 = first_snapshot.
Proof. split; reflexivity. Qed.

(** The rows inserted before the entry that raises stay in the
    connection. *)
Lemma store_raises_midway :
  let call :=
    store_wallet_data sample_float next_day empty_db "0xABC"
      [hype_10; hype_null; hype_10] hype_quote (Some sample_fills) in
  call.2 = Raise TypeError ∧
  length (balances call.1) = 1%nat ∧
  trades call.1 = [].
Proof. repeat split. Qed.

(** With the empty string as wallet the query takes the branch for all
    wallets, and returns the latest rows of the other wallets as well. *)
Lemma store_then_latest_balances_empty_wallet :
  let call :=
    store_wallet_data sample_float next_day first_snapshot "" [hype_10] hype_quote None in
  length (added (balances first_snapshot) (balances call.1)) = 1%nat ∧
  length (get_latest_balances call.1 (Some "")) = 2%nat.
Proof. split; reflexivity. Qed.

(** No wallet given: the latest rows of each wallet. *)
Lemma get_latest_balances_all conn (b : BalanceRow) :
  b ∈ get_latest_balances conn None ↔
  b ∈ balances conn ∧
  sql_max (b_timestamp <$> of_wallet (b_wallet b) (balances conn))
    = Some (b_timestamp b).
Proof.
  unfold get_latest_balances. simpl.
  rewrite list_elem_of_In, List.filter_In, <- list_elem_of_In.
  by rewrite bool_decide_eq_true.
Qed.

(** ** Timestamps of a snapshot *)

(** C10, as the code has it: every balance row that one call of
    [store_wallet_data] inserts carries the wallet of the call and one and
    the same timestamp, the clock read once at the start of the call; every
    trade row it inserts carries the wallet and the timestamp of its own
    trade.  A call that returns inserts one balance row per entry and one
    trade row per stored trade; a call that raises has inserted the balance
    rows of the entries before the one that raised, and no trade row. *)
Theorem store_wallet_data_timestamps float_of_string now conn (wallet : string)
    (entries : list Balance) (prices : gmap string float)
    (trades_df : option DataFrame) :
  let call := store_wallet_data float_of_string now conn wallet entries prices trades_df in
  let conn' := call.1 in
  let new_balances := added (balances conn) (balances conn') in
  let new_trades := added (trades conn) (trades conn') in
  balances conn' = balances conn ++ new_balances ∧
  trades conn' = trades conn ++ new_trades ∧
  Forall (λ b, b_wallet b = wallet ∧ b_timestamp b = datetime_isoformat now)
    new_balances ∧
  match call.2 with
  | Ok _ =>
      length new_balances = length entries ∧
      Forall2
        (λ t r, r_wallet r = wallet ∧
                r_timestamp r = Timestamp_isoformat (t_timestamp t))
        (stored_trades trades_df) new_trades
  | Raise _ => (length new_balances < length entries)%nat ∧ new_trades = []
  end.
Proof.
  intros call conn' new_balances new_trades.
  destruct (store_wallet_data_rows float_of_string now conn wallet entries prices
              trades_df) as (new_b & new_t & Hbal & Htr & Hrows & Hend).
  fold call in Hbal, Htr, Hend. fold conn' in Hbal, Htr.
  assert (new_balances = new_b) as ->.
  { unfold new_balances. rewrite Hbal. apply added_app. }
  assert (new_trades = new_t) as ->.
  { unfold new_trades. rewrite Htr. apply added_app. }
  split; [done|]. split; [done|]. split; [|done].
  eapply Forall2_Forall_r; [exact Hrows|]. apply Forall_true.
  by intros entry row (Hw & Ht & _).
Qed.

(** C10, as stated, fails for the trade rows: a fill of the day before is
    stored under its own timestamp, not under the timestamp of the call
    that the balance row carries. *)
Lemma store_wallet_data_trade_timestamp :
  let call :=
    store_wallet_data sample_float new_year_2024 empty_db "0xABC" [hype_10]
      hype_quote (Some sample_fills) in
  let conn' := call.1 in
  call.2 = Ok () ∧
  ∃ b r,
    b ∈ added (balances empty_db) (balances conn') ∧
    r ∈ added (trades empty_db) (trades conn') ∧
    b_timestamp b = "2024-01-01T00:00:00" ∧
    r_timestamp r = "2023-12-31T23:00:00" ∧
    r_timestamp r ≠ b_timestamp b.
Proof.
  split; [reflexivity|].
  eexists _, _. split; [vm_compute; apply list_elem_of_here|].
  split; [vm_compute; apply list_elem_of_here|].
  split; [reflexivity|]. split; [reflexivity|]. discriminate.
Qed.

(** ** Recent trades *)

Global Instance later_first_transitive : Transitive later_first.
Proof. intros r1 r2 r3 H12 H23. unfold later_first in *. by etrans. Qed.

Global Instance later_first_total : Total later_first.
Proof. intros r1 r2. unfold later_first. destruct (total String.le (r_timestamp r1) (r_timestamp r2)); auto. Qed.

Lemma Sorted_take {A : Type} (R : relation A) (l : list A) (n : nat) :
  Sorted R l → Sorted R (take n l).
Proof.
  intros Hsorted. revert n.
  induction Hsorted as [|x l Hl IH Hhd]; intros [|n]; simpl; try constructor.
  - apply IH.
  - destruct Hhd as [|y l' Hxy]; [destruct n; constructor|].
    destruct n; simpl; by constructor.
Qed.

Lemma sql_limit_length {A : Type} (n : Z) (l : list A) :
  0 ≤ n → Z.of_nat (length (sql_limit n l)) ≤ n.
Proof.
  intros Hn. unfold sql_limit.
  destruct (Z.ltb_spec n 0) as [|_]; [lia|].
  rewrite length_take. lia.
Qed.

Lemma sql_limit_Sorted {A : Type} (R : relation A) (n : Z) (l : list A) :
  Sorted R l → Sorted R (sql_limit n l).
Proof.
  intros Hsorted. unfold sql_limit. destruct (n <? 0); [done|].
  by apply Sorted_take.
Qed.

(** A negative limit is no limit. *)
Lemma sql_limit_negative {A : Type} (n : Z) (l : list A) :
  n < 0 → sql_limit n l = l.
Proof. intros Hn. unfold sql_limit. by rewrite (proj2 (Z.ltb_lt _ _) Hn). Qed.

Lemma sql_integer_in_range (n : Z) :
  - 2 ^ 63 ≤ n < 2 ^ 63 → sql_integer n = Ok n.
Proof.
  intros [Hlo Hhi]. unfold sql_integer.
  by rewrite (proj2 (Z.leb_le _ _) Hlo), (proj2 (Z.ltb_lt _ _) Hhi).
Qed.

Lemma sql_integer_out_of_range (n : Z) :
  n < - 2 ^ 63 ∨ 2 ^ 63 ≤ n → sql_integer n = Raise OverflowError.
Proof.
  intros Hn. unfold sql_integer.
  destruct (Z.leb_spec (- 2 ^ 63) n), (Z.ltb_spec n (2 ^ 63)); try done; lia.
Qed.

(** C5, as the code has it: for every stored set of trade rows, every
    wallet filter (given or not) and every limit N that is not negative and
    fits a 64-bit SQLite integer, [get_recent_trades] returns at most N
    rows, each row at least as late as the next one: timestamps never
    increase, and equal timestamps may follow one another. *)
Theorem get_recent_trades_limit_order conn (wallet : option string) (limit : Z) :
  0 ≤ limit < 2 ^ 63 →
  ∃ rows,
    get_recent_trades conn wallet limit = Ok rows ∧
    Z.of_nat (length rows) ≤ limit ∧
    Sorted later_first rows.
Proof.
  intros [Hlimit Hfits]. unfold get_recent_trades.
  rewrite sql_integer_in_range by lia. eexists. split; [reflexivity|]. split.
  - by apply sql_limit_length.
  - apply sql_limit_Sorted, Sorted_merge_sort. apply _.
Qed.

Lemma get_recent_trades_limit_order_witness :
  ∃ rows,
    get_recent_trades second_snapshot (Some "0xABC") 3 = Ok rows ∧
    Z.of_nat (length rows) ≤ 3 ∧
    Sorted later_first rows.
Proof.
  apply (get_recent_trades_limit_order second_snapshot (Some "0xABC") 3).
  split; [lia | reflexivity].
Defined.

(** A limit that does not fit a 64-bit integer cannot be bound to the
    statement: the call raises. *)
Lemma get_recent_trades_overflow conn (wallet : option string) (limit : Z) :
  limit < - 2 ^ 63 ∨ 2 ^ 63 ≤ limit →
  get_recent_trades conn wallet limit = Raise OverflowError.
Proof.
  intros Hlimit. unfold get_recent_trades.
  by rewrite sql_integer_out_of_range.
Qed.

(** The rows come from the table, and from the wallet when one is given. *)
Lemma get_recent_trades_rows conn (wallet : option string) (limit : Z)
    (rows : list TradeRow) (r : TradeRow) :
  get_recent_trades conn wallet limit = Ok rows →
  r ∈ rows →
  r ∈ trades conn ∧ ∀ w, truthy wallet = Some w → r_wallet r = w.
Proof.
  unfold get_recent_trades, sql_limit. intros Hrows Hr.
  destruct (sql_integer limit) as [n|]; [|done]. injection Hrows as <-.
  assert (r ∈ merge_sort later_first
            match truthy wallet with
            | Some w => List.filter (λ r, String.eqb (r_wallet r) w) (trades conn)
            | None => trades conn
            end) as Hin.
  { destruct (n <? 0); [done|].
    rewrite <- (take_drop (Z.to_nat n)). apply elem_of_app. by left. }
  rewrite merge_sort_Permutation in Hin.
  destruct (truthy wallet) as [w|]; [|by split].
  apply list_elem_of_In, List.filter_In in Hin as [Hin Hw].
  split; [by apply list_elem_of_In|]. intros w' [= <-]. by apply String.eqb_eq.
Qed.

(** C5, as stated, fails on the order: a second refresh stores the same
    fills again, so the table holds rows with equal timestamps, and the
    result is not strictly descending. *)
Lemma get_recent_trades_equal_timestamps :
  ∃ rows,
    get_recent_trades second_snapshot (Some "0xABC") 4 = Ok rows ∧
    Z.of_nat (length rows) ≤ 4 ∧
    ¬ Sorted strictly_later_first rows.
Proof.
  eexists. split; [reflexivity|].
  split; [vm_compute; discriminate|]. compute_done.
Qed.

(** A negative limit returns every row: more than the limit. *)
Lemma get_recent_trades_negative_limit :
  ∃ rows,
    get_recent_trades second_snapshot None (-1) = Ok rows ∧
    length rows = 4%nat.
Proof. eexists. split; reflexivity. Qed.

(** * Properties of the rest of the code *)

(** ** The calendar *)

Lemma civil_from_days_parts days :
  civil_from_days days =
    let era := (days + 719468) / 146097 in
    let doe := (days + 719468) mod 146097 in
    let mp := month_index (day_of_year doe) in
    (year_of_era doe + era * 400 + (if month_number mp <=? 2 then 1 else 0),
     month_number mp, day_of_month (day_of_year doe)).
Proof. reflexivity. Qed.

Lemma year_of_era_range doe :
  0 <= doe <= 146096 ->
  0 <= year_of_era doe <= 399 /\ year_start (year_of_era doe) <= doe.
Proof.
  intros H. unfold year_of_era, year_start. Z.div_mod_to_equations; lia.
Qed.

Lemma year_of_era_upper doe :
  0 <= doe <= 146096 ->
  doe < year_start (year_of_era doe + 1) \/ year_of_era doe = 399.
Proof.
  intros H. unfold year_of_era, year_start. Z.div_mod_to_equations; lia.
Qed.

Lemma year_start_mono y1 y2 : y1 <= y2 -> year_start y1 <= year_start y2.
Proof. unfold year_start. Z.div_mod_to_equations; lia. Qed.

Lemma year_length y : year_start (y + 1) - year_start y <= 366.
Proof. unfold year_start. Z.div_mod_to_equations; lia. Qed.

Lemma day_of_year_range doe :
  0 <= doe <= 146096 -> 0 <= day_of_year doe <= 365.
Proof.
  intros H. unfold day_of_year.
  destruct (year_of_era_range doe H) as [Hy Hs].
  destruct (year_of_era_upper doe H) as [Hu|Hu].
  - pose proof (year_length (year_of_era doe)). lia.
  - rewrite Hu in *. change (year_start 399) with 145731 in *. lia.
Qed.

Lemma year_of_era_lt doe1 doe2 :
  0 <= doe1 -> doe1 < doe2 -> doe2 <= 146096 ->
  year_of_era doe1 < year_of_era doe2 ∨
  (year_of_era doe1 = year_of_era doe2 ∧ day_of_year doe1 < day_of_year doe2).
Proof.
  intros H0 Hlt Hmax.
  destruct (year_of_era_range doe1) as [Hy1 Hs1]; [lia|].
  destruct (year_of_era_range doe2) as [Hy2 Hs2]; [lia|].
  destruct (Z.lt_trichotomy (year_of_era doe1) (year_of_era doe2)) as [Hc|[Hc|Hc]].
  - by left.
  - right. split; [done|]. unfold day_of_year. rewrite Hc. lia.
  - exfalso.
    pose proof (year_start_mono (year_of_era doe2 + 1) (year_of_era doe1)).
    destruct (year_of_era_upper doe2) as [Hu|Hu]; lia.
Qed.

Lemma month_index_range doy :
  0 <= doy <= 365 ->
  0 <= month_index doy <= 11 /\
  month_start (month_index doy) <= doy < month_start (month_index doy + 1).
Proof.
  intros H. unfold month_start, month_index. Z.div_mod_to_equations; lia.
Qed.

Lemma month_start_mono m1 m2 : m1 <= m2 -> month_start m1 <= month_start m2.
Proof. unfold month_start. Z.div_mod_to_equations; lia. Qed.

Lemma month_length mp : month_start (mp + 1) - month_start mp <= 31.
Proof. unfold month_start. Z.div_mod_to_equations; lia. Qed.

Lemma day_of_month_range doy :
  0 <= doy <= 365 -> 1 <= day_of_month doy <= 31.
Proof.
  intros H. unfold day_of_month.
  destruct (month_index_range doy H) as [_ Hs].
  pose proof (month_length (month_index doy)). lia.
Qed.

Lemma month_index_lt doy1 doy2 :
  0 <= doy1 -> doy1 < doy2 -> doy2 <= 365 ->
  month_index doy1 < month_index doy2 ∨
  (month_index doy1 = month_index doy2 ∧ day_of_month doy1 < day_of_month doy2).
Proof.
  intros H0 Hlt Hmax.
  destruct (month_index_range doy1) as [Hm1 Hs1]; [lia|].
  destruct (month_index_range doy2) as [Hm2 Hs2]; [lia|].
  destruct (Z.lt_trichotomy (month_index doy1) (month_index doy2)) as [Hc|[Hc|Hc]].
  - by left.
  - right. split; [done|]. unfold day_of_month. rewrite Hc. lia.
  - exfalso.
    pose proof (month_start_mono (month_index doy2 + 1) (month_index doy1)). lia.
Qed.

Lemma civil_from_days_fields days :
  let '(y, m, d) := civil_from_days days in 1 <= m <= 12 ∧ 1 <= d <= 31.
Proof.
  rewrite civil_from_days_parts. cbv zeta.
  assert (0 <= (days + 719468) mod 146097 <= 146096) as Hdoe
    by (Z.div_mod_to_equations; lia).
  pose proof (day_of_year_range _ Hdoe) as Hdoy.
  pose proof (day_of_month_range _ Hdoy).
  destruct (month_index_range _ Hdoy) as [Hmp _].
  unfold month_number. destruct (Z.ltb_spec (month_index (day_of_year ((days + 719468) mod 146097))) 10); lia.
Qed.

Lemma civil_from_days_lt days1 days2 :
  days1 < days2 -> date_lt (civil_from_days days1) (civil_from_days days2).
Proof.
  intros Hlt. rewrite !civil_from_days_parts. cbv zeta. unfold date_lt.
  set (z1 := days1 + 719468). set (z2 := days2 + 719468).
  assert (0 <= z1 mod 146097 <= 146096) as Hdoe1 by (Z.div_mod_to_equations; lia).
  assert (0 <= z2 mod 146097 <= 146096) as Hdoe2 by (Z.div_mod_to_equations; lia).
  assert (z1 / 146097 < z2 / 146097 ∨
          (z1 / 146097 = z2 / 146097 ∧ z1 mod 146097 < z2 mod 146097)) as Hera
    by (subst z1 z2; Z.div_mod_to_equations; lia).
  pose proof (year_of_era_range _ Hdoe1) as [Hy1 _].
  pose proof (year_of_era_range _ Hdoe2) as [Hy2 _].
  pose proof (day_of_year_range _ Hdoe1) as Hdoy1.
  pose proof (day_of_year_range _ Hdoe2) as Hdoy2.
  pose proof (month_index_range _ Hdoy1) as [Hmp1 _].
  pose proof (month_index_range _ Hdoy2) as [Hmp2 _].
  assert (z1 / 146097 < z2 / 146097 ∨
          (z1 / 146097 = z2 / 146097 ∧
           (year_of_era (z1 mod 146097) < year_of_era (z2 mod 146097) ∨
            (year_of_era (z1 mod 146097) = year_of_era (z2 mod 146097) ∧
             (month_index (day_of_year (z1 mod 146097))
                < month_index (day_of_year (z2 mod 146097)) ∨
              (month_index (day_of_year (z1 mod 146097))
                 = month_index (day_of_year (z2 mod 146097)) ∧
               day_of_month (day_of_year (z1 mod 146097))
                 < day_of_month (day_of_year (z2 mod 146097)))))))) as Hlex.
  { destruct Hera as [He|[He Hd]]; [by left|]. right. split; [done|].
    destruct (year_of_era_lt _ _ (proj1 Hdoe1) Hd (proj2 Hdoe2)) as [Hy|[Hy Hdy]];
      [by left|]. right. split; [done|].
    apply month_index_lt; lia. }
  clear Hera Hlt.
  generalize dependent (day_of_month (day_of_year (z1 mod 146097))).
  generalize dependent (day_of_month (day_of_year (z2 mod 146097))).
  generalize dependent (month_index (day_of_year (z1 mod 146097))).
  generalize dependent (month_index (day_of_year (z2 mod 146097))).
  generalize dependent (year_of_era (z1 mod 146097)).
  generalize dependent (year_of_era (z2 mod 146097)).
  generalize dependent (z1 / 146097). generalize dependent (z2 / 146097).
  intros e2 e1 y2 Hy2 y1 Hy1 m2 Hm2 m1 Hm1 d2 d1 Hlex.
  unfold month_number.
  destruct (Z.ltb_spec m1 10), (Z.ltb_spec m2 10);
    repeat match goal with
    | |- context [if ?a <=? ?b then _ else _] => destruct (Z.leb_spec a b)
    end; lia.
Qed.

Lemma append_assoc (a b c : string) : (a +:+ b) +:+ c = a +:+ (b +:+ c).
Proof. induction a as [|x a IH]; [done|]. exact (f_equal (String x) IH). Qed.

Lemma append_nil_r (a : string) : a +:+ "" = a.
Proof. induction a as [|x a IH]; [done|]. exact (f_equal (String x) IH). Qed.

Lemma length_append (a b : string) :
  String.length (a +:+ b) = (String.length a + String.length b)%nat.
Proof. induction a as [|x a IH]; [done|]. exact (f_equal S IH). Qed.

Lemma zfill_length (w : nat) (n : Z) : String.length (zfill w n) = w.
Proof.
  revert n. induction w as [|w IH]; intros n; [done|].
  simpl. rewrite length_append, IH. simpl. lia.
Qed.

Lemma ascii_compare_refl (c : ascii) : Ascii.compare c c = Eq.
Proof. unfold Ascii.compare. apply N.compare_refl. Qed.

Lemma text_lt_prefix (p a b : string) : text_lt a b → text_lt (p +:+ a) (p +:+ b).
Proof.
  unfold text_lt, String.ltb. intros Hlt.
  induction p as [|c p IH]; [done|]. simpl. by rewrite ascii_compare_refl.
Qed.

Lemma text_lt_append (a a' b b' : string) :
  String.length a = String.length a' →
  text_lt a a' → text_lt (a +:+ b) (a' +:+ b').
Proof.
  unfold text_lt, String.ltb. revert a'.
  induction a as [|c a IH]; intros [|c' a'] Hlen Hlt; try done.
  simpl in *. destruct (Ascii.compare c c'); try done.
  apply IH; [lia|done].
Qed.

Lemma text_lt_nil (c : ascii) (a : string) : text_lt "" (String c a).
Proof. reflexivity. Qed.

Lemma text_lt_single (c1 c2 : ascii) :
  Ascii.compare c1 c2 = Lt → text_lt (String c1 "") (String c2 "").
Proof. intros Hc. unfold text_lt, String.ltb. cbn [String.compare]. by rewrite Hc. Qed.

Lemma digit_cases (n : Z) :
  0 <= n <= 9 →
  n = 0 ∨ n = 1 ∨ n = 2 ∨ n = 3 ∨ n = 4 ∨ n = 5 ∨ n = 6 ∨ n = 7 ∨ n = 8 ∨ n = 9.
Proof. lia. Qed.

Lemma digit_lt (a b : Z) :
  0 <= a → a < b → b <= 9 → Ascii.compare (digit a) (digit b) = Lt.
Proof.
  intros Ha Hab Hb.
  destruct (digit_cases a) as [->|[->|[->|[->|[->|[->|[->|[->|[->| ->]]]]]]]]]; [lia|..];
  destruct (digit_cases b) as [->|[->|[->|[->|[->|[->|[->|[->|[->| ->]]]]]]]]]; [lia|..];
    first [reflexivity | lia].
Qed.

Lemma digit_mod (n : Z) : digit (n mod 10) = digit n.
Proof. unfold digit. by rewrite Z.mod_mod. Qed.

Lemma zfill_lt (w : nat) (n m : Z) :
  0 <= n → n < m → m < 10 ^ Z.of_nat w → text_lt (zfill w n) (zfill w m).
Proof.
  revert n m. induction w as [|w IH]; intros n m Hn Hnm Hm.
  { simpl in Hm. lia. }
  rewrite Nat2Z.inj_succ, Z.pow_succ_r in Hm by lia.
  simpl.
  destruct (Z.lt_trichotomy (n / 10) (m / 10)) as [Hq|[Hq|Hq]].
  - apply text_lt_append; [by rewrite !zfill_length|].
    apply IH; [|done|]; Z.div_mod_to_equations; lia.
  - rewrite Hq. apply text_lt_prefix.
    apply text_lt_single.
    rewrite <- (digit_mod n), <- (digit_mod m).
    apply digit_lt; Z.div_mod_to_equations; lia.
  - exfalso. Z.div_mod_to_equations; lia.
Qed.

(** A zero-padded field followed by more text: the field decides, and the
    rest decides between equal fields. *)
Lemma text_lt_field (w : nat) (n m : Z) (r1 r2 : string) :
  0 <= n → 0 <= m → n < 10 ^ Z.of_nat w → m < 10 ^ Z.of_nat w →
  n < m ∨ (n = m ∧ text_lt r1 r2) →
  text_lt (zfill w n +:+ r1) (zfill w m +:+ r2).
Proof.
  intros Hn Hm Hnw Hmw [Hlt|[-> Hr]].
  - apply text_lt_append; [by rewrite !zfill_length|]. by apply zfill_lt.
  - by apply text_lt_prefix.
Qed.

Lemma date_lt_le_trans_year days :
  -719162 <= days <= 2932896 →
  let '(y, m, d) := civil_from_days days in 1 <= y <= 9999.
Proof.
  intros [Hlo Hhi].
  pose proof (civil_from_days_fields days) as Hf.
  assert (days = -719162 ∨ -719162 < days) as [->|Hlo'] by lia; [done|].
  assert (days = 2932896 ∨ days < 2932896) as [->|Hhi'] by lia; [done|].
  pose proof (civil_from_days_lt _ _ Hlo') as H1.
  pose proof (civil_from_days_lt _ _ Hhi') as H2.
  destruct (civil_from_days days) as [[y m] d].
  change (civil_from_days (-719162)) with (1, 1, 1) in H1.
  change (civil_from_days 2932896) with (9999, 12, 31) in H2.
  unfold date_lt in *. lia.
Qed.

Ltac field_step :=
  apply text_lt_field; [simpl; lia..|];
  match goal with
  | |- ?n < ?m ∨ _ =>
      destruct (Z.lt_trichotomy n m) as [?|[?|?]];
        [by left | right; split; [done|] | exfalso; lia]
  end.

Lemma isoformat_seconds_lt (secs1 secs2 : Z) (r1 r2 : string) :
  -62135596800 <= secs1 → secs1 <= 253402300799 →
  -62135596800 <= secs2 → secs2 <= 253402300799 →
  secs1 < secs2 ∨ (secs1 = secs2 ∧ text_lt r1 r2) →
  text_lt (isoformat_seconds secs1 +:+ r1) (isoformat_seconds secs2 +:+ r2).
Proof.
  intros Hlo1 Hhi1 Hlo2 Hhi2 Hcases.
  destruct Hcases as [Hlt|[-> Hr]]; [|by apply text_lt_prefix].
  unfold isoformat_seconds.
  assert (-719162 <= secs1 / 86400 <= 2932896) as Hd1 by (Z.div_mod_to_equations; lia).
  assert (-719162 <= secs2 / 86400 <= 2932896) as Hd2 by (Z.div_mod_to_equations; lia).
  pose proof (date_lt_le_trans_year _ Hd1) as Hy1.
  pose proof (date_lt_le_trans_year _ Hd2) as Hy2.
  pose proof (civil_from_days_fields (secs1 / 86400)) as Hf1.
  pose proof (civil_from_days_fields (secs2 / 86400)) as Hf2.
  assert (secs1 / 86400 < secs2 / 86400 ∨
          (secs1 / 86400 = secs2 / 86400 ∧ secs1 mod 86400 < secs2 mod 86400))
    as Hdays by (Z.div_mod_to_equations; lia).
  assert (0 <= secs1 mod 86400 < 86400) as Hs1 by (Z.div_mod_to_equations; lia).
  assert (0 <= secs2 mod 86400 < 86400) as Hs2 by (Z.div_mod_to_equations; lia).
  assert (date_lt (civil_from_days (secs1 / 86400)) (civil_from_days (secs2 / 86400)) ∨
          (civil_from_days (secs1 / 86400) = civil_from_days (secs2 / 86400) ∧
           secs1 mod 86400 < secs2 mod 86400)) as Hdate.
  { destruct Hdays as [Hd|[Hd Hs]]; [left; by apply civil_from_days_lt|].
    right. by rewrite Hd. }
  clear Hdays Hlt Hd1 Hd2.
  generalize dependent (secs1 mod 86400). generalize dependent (secs2 mod 86400).
  intros sod2 Hs2 sod1 Hs1.
  destruct (civil_from_days (secs1 / 86400)) as [[y1 m1] d1].
  destruct (civil_from_days (secs2 / 86400)) as [[y2 m2] d2].
  intros Hdate. rewrite !append_assoc. simpl date_lt in Hdate.
  assert (sod1 < sod2 →
          sod1 / 3600 < sod2 / 3600 ∨
          (sod1 / 3600 = sod2 / 3600 ∧
           (sod1 / 60 mod 60 < sod2 / 60 mod 60 ∨
            (sod1 / 60 mod 60 = sod2 / 60 mod 60 ∧ sod1 mod 60 < sod2 mod 60))))
    as Htime by (intros ?; Z.div_mod_to_equations; lia).
  assert (0 <= sod1 / 3600 < 100 ∧ 0 <= sod1 / 60 mod 60 < 100 ∧ 0 <= sod1 mod 60 < 100)
    as (HH1 & HM1 & HS1) by (Z.div_mod_to_equations; lia).
  assert (0 <= sod2 / 3600 < 100 ∧ 0 <= sod2 / 60 mod 60 < 100 ∧ 0 <= sod2 mod 60 < 100)
    as (HH2 & HM2 & HS2) by (Z.div_mod_to_equations; lia).
  generalize dependent (sod1 / 3600). generalize dependent (sod2 / 3600).
  generalize dependent (sod1 / 60 mod 60). generalize dependent (sod2 / 60 mod 60).
  generalize dependent (sod1 mod 60). generalize dependent (sod2 mod 60).
  intros S2 HS2 S1 HS1 M2 HM2 M1 HM1 H2 HH2 H1 HH1 Htime.
  assert (y1 < y2 ∨ (y1 = y2 ∧ (m1 < m2 ∨ (m1 = m2 ∧ (d1 < d2 ∨
            (d1 = d2 ∧ sod1 < sod2)))))) as Hlex.
  { destruct Hdate as [Hd|[[= -> -> ->] Hs]]; lia. }
  clear Hdate.
  assert (y1 < y2 ∨ (y1 = y2 ∧ (m1 < m2 ∨ (m1 = m2 ∧ (d1 < d2 ∨ (d1 = d2 ∧
            (H1 < H2 ∨ (H1 = H2 ∧ (M1 < M2 ∨ (M1 = M2 ∧ S1 < S2))))))))))
    as Hall.
  { destruct Hlex as [?|[? [?|[? [?|[? Hs]]]]]]; [lia..|].
    specialize (HH1 Hs). lia. }
  clear Hlex HH1.
  field_step. apply text_lt_prefix with (p := "-").
  field_step. apply text_lt_prefix with (p := "-").
  field_step. apply text_lt_prefix with (p := "T").
  field_step. apply text_lt_prefix with (p := ":").
  field_step. apply text_lt_prefix with (p := ":").
  field_step. exfalso. lia.
Qed.

Lemma datetime_isoformat_lt (d1 d2 : datetime) :
  valid_datetime d1 → valid_datetime d2 → d1 < d2 →
  text_lt (datetime_isoformat d1) (datetime_isoformat d2).
Proof.
  unfold valid_datetime, datetime_min, datetime_max. intros Hv1 Hv2 Hlt.
  unfold datetime_isoformat.
  apply isoformat_seconds_lt; [Z.div_mod_to_equations; lia..|].
  assert (d1 / 1000000 < d2 / 1000000 ∨
          (d1 / 1000000 = d2 / 1000000 ∧ d1 mod 1000000 < d2 mod 1000000))
    as [Hs|[Hs Hus]] by (Z.div_mod_to_equations; lia); [by left|].
  right. split; [done|].
  assert (0 <= d1 mod 1000000 < 1000000) as Hr1 by (Z.div_mod_to_equations; lia).
  assert (0 <= d2 mod 1000000 < 1000000) as Hr2 by (Z.div_mod_to_equations; lia).
  destruct (Z.eqb_spec (d2 mod 1000000) 0) as [|Hnz2]; [lia|].
  destruct (Z.eqb_spec (d1 mod 1000000) 0) as [|Hnz1]; [apply text_lt_nil|].
  apply text_lt_prefix with (p := "."). apply zfill_lt; simpl; lia.
Qed.

Lemma zfill_split (a b : nat) (n : Z) :
  zfill (a + b) n = zfill a (n / 10 ^ Z.of_nat b) +:+ zfill b n.
Proof.
  revert n. induction b as [|b IH]; intros n.
  - rewrite Nat.add_0_r. simpl. by rewrite Z.div_1_r, append_nil_r.
  - rewrite Nat.add_succ_r. cbn [zfill]. rewrite IH, append_assoc.
    rewrite Nat2Z.inj_succ, Z.pow_succ_r by lia.
    by rewrite Z.div_div by lia.
Qed.

Lemma zfill_3_mod (n : Z) : zfill 3 (n mod 1000) = zfill 3 n.
Proof.
  cbn [zfill]. unfold digit.
  replace (n mod 1000 / 10 / 10 mod 10) with (n / 10 / 10 mod 10)
    by (Z.div_mod_to_equations; lia).
  replace (n mod 1000 / 10 mod 10) with (n / 10 mod 10)
    by (Z.div_mod_to_equations; lia).
  replace (n mod 1000 mod 10) with (n mod 10)
    by (Z.div_mod_to_equations; lia).
  done.
Qed.

Lemma text_lt_empty (s : string) : s ≠ "" → text_lt "" s.
Proof. by destruct s. Qed.

Lemma Timestamp_isoformat_fraction (t : Timestamp) :
  Timestamp_isoformat t
    = isoformat_seconds (t / 1000000000) +:+ fraction_text (t mod 1000000000).
Proof.
  unfold Timestamp_isoformat, fraction_text, datetime_isoformat. cbv zeta.
  destruct (_ =? 0); [|done].
  replace (t / 1000 / 1000000) with (t / 1000000000) by (Z.div_mod_to_equations; lia).
  replace (t / 1000 mod 1000000) with (t mod 1000000000 / 1000)
    by (Z.div_mod_to_equations; lia).
  done.
Qed.

Lemma fraction_text_lt (ns1 ns2 : Z) :
  0 <= ns1 → ns1 < ns2 → ns2 < 1000000000 →
  text_lt (fraction_text ns1) (fraction_text ns2).
Proof.
  intros H0 Hlt Hmax.
  assert (∀ ns, 0 < ns < 1000000000 →
            fraction_text ns = "." +:+ zfill 6 (ns / 1000) +:+
              (if ns mod 1000 =? 0 then "" else zfill 3 (ns mod 1000))) as Hform.
  { intros ns Hns. unfold fraction_text.
    destruct (Z.eqb_spec (ns mod 1000) 0) as [Hz|Hz].
    - destruct (Z.eqb_spec (ns / 1000) 0) as [Hq|Hq];
        [exfalso; Z.div_mod_to_equations; lia|].
      by rewrite append_nil_r.
    - change 9%nat with (6 + 3)%nat. rewrite zfill_split, zfill_3_mod. done. }
  rewrite (Hform ns2) by lia.
  assert (ns1 = 0 ∨ 0 < ns1) as [->|Hpos] by lia; [done|].
  rewrite (Hform ns1) by lia.
  apply text_lt_prefix with (p := ".").
  apply text_lt_field; [simpl; Z.div_mod_to_equations; lia..|].
  assert (ns1 / 1000 < ns2 / 1000 ∨
          (ns1 / 1000 = ns2 / 1000 ∧ ns1 mod 1000 < ns2 mod 1000)) as [Hq|[Hq Hr]]
    by (Z.div_mod_to_equations; lia); [by left|].
  right. split; [done|].
  destruct (Z.eqb_spec (ns2 mod 1000) 0) as [Hz2|Hz2];
    [exfalso; Z.div_mod_to_equations; lia|].
  destruct (Z.eqb_spec (ns1 mod 1000) 0) as [Hz1|Hz1].
  - apply text_lt_empty, zfill_nonempty.
  - apply zfill_lt; simpl; Z.div_mod_to_equations; lia.
Qed.

Lemma Timestamp_isoformat_lt (t1 t2 : Timestamp) :
  valid_Timestamp t1 → valid_Timestamp t2 → t1 < t2 →
  text_lt (Timestamp_isoformat t1) (Timestamp_isoformat t2).
Proof.
  unfold valid_Timestamp, to_Timestamp, datetime_min, datetime_max.
  intros Hv1 Hv2 Hlt. rewrite !Timestamp_isoformat_fraction.
  apply isoformat_seconds_lt; [Z.div_mod_to_equations; lia..|].
  assert (t1 / 1000000000 < t2 / 1000000000 ∨
          (t1 / 1000000000 = t2 / 1000000000 ∧
           t1 mod 1000000000 < t2 mod 1000000000)) as [Hs|[Hs Hns]]
    by (Z.div_mod_to_equations; lia); [by left|].
  right. split; [done|].
  apply fraction_text_lt; [|done|]; Z.div_mod_to_equations; lia.
Qed.

(** ** TEXT order of timestamps is the order of time *)

Lemma text_lt_le (a b : string) : text_lt a b → String.le a b.
Proof.
  unfold text_lt, String.le, String.ltb, String.leb.
  by destruct (String.compare a b).
Qed.

Lemma text_le_not_lt (a b : string) : String.le a b → ¬ text_lt b a.
Proof.
  intros Hle Hlt. apply text_lt_not_le in Hlt.
  unfold String.le in Hle. by rewrite Hlt in Hle.
Qed.

(** X1: for datetimes that Python can hold (years 1 to 9999), the text
    that [datetime.isoformat()] gives sorts before another exactly when the
    datetime is earlier: comparing stored timestamps as TEXT compares them
    in time. *)
Theorem datetime_isoformat_order (d1 d2 : datetime) :
  valid_datetime d1 → valid_datetime d2 →
  (text_lt (datetime_isoformat d1) (datetime_isoformat d2) ↔ d1 < d2).
Proof.
  intros Hv1 Hv2. split; [|by apply datetime_isoformat_lt].
  intros Hlt. destruct (Z.lt_trichotomy d1 d2) as [H|[->|H]]; [done|..].
  - by apply text_lt_irrefl in Hlt.
  - apply (datetime_isoformat_lt _ _ Hv2 Hv1), text_lt_le in H.
    by apply text_le_not_lt in H.
Qed.

Lemma datetime_isoformat_order_witness :
  text_lt (datetime_isoformat new_year_2024) (datetime_isoformat next_day)
  ↔ new_year_2024 < next_day.
Proof.
  apply (datetime_isoformat_order new_year_2024 next_day);
    unfold valid_datetime, datetime_min, datetime_max, next_day, new_year_2024,
      timedelta; lia.
Defined.

Lemma datetime_isoformat_le (d1 d2 : datetime) :
  valid_datetime d1 → valid_datetime d2 →
  (String.le (datetime_isoformat d1) (datetime_isoformat d2) ↔ d1 <= d2).
Proof.
  intros Hv1 Hv2. split.
  - intros Hle. destruct (Z.le_gt_cases d1 d2) as [H|H]; [done|].
    apply (datetime_isoformat_lt _ _ Hv2 Hv1) in H.
    by apply text_le_not_lt in Hle.
  - intros Hle. destruct (Z.eq_dec d1 d2) as [->|Hne]; [done|].
    apply text_lt_le, datetime_isoformat_lt; [done..|lia].
Qed.

(** X2: the same for [Timestamp.isoformat()], with its six or nine digits
    of fraction: the text of an earlier trade sorts strictly before the
    text of a later one, and only then. *)
Theorem Timestamp_isoformat_order (t1 t2 : Timestamp) :
  valid_Timestamp t1 → valid_Timestamp t2 →
  (text_lt (Timestamp_isoformat t1) (Timestamp_isoformat t2) ↔ t1 < t2).
Proof.
  intros Hv1 Hv2. split; [|by apply Timestamp_isoformat_lt].
  intros Hlt. destruct (Z.lt_trichotomy t1 t2) as [H|[->|H]]; [done|..].
  - by apply text_lt_irrefl in Hlt.
  - apply (Timestamp_isoformat_lt _ _ Hv2 Hv1), text_lt_le in H.
    by apply text_le_not_lt in H.
Qed.

Lemma Timestamp_isoformat_order_witness :
  text_lt (Timestamp_isoformat (to_Timestamp new_year_2024 + 500))
          (Timestamp_isoformat (to_Timestamp new_year_2024 + 1000))
  ↔ to_Timestamp new_year_2024 + 500 < to_Timestamp new_year_2024 + 1000.
Proof.
  apply (Timestamp_isoformat_order (to_Timestamp new_year_2024 + 500)
           (to_Timestamp new_year_2024 + 1000));
    unfold valid_Timestamp, to_Timestamp, datetime_min, datetime_max,
      new_year_2024; lia.
Defined.

Lemma Timestamp_isoformat_le (t1 t2 : Timestamp) :
  valid_Timestamp t1 → valid_Timestamp t2 →
  (String.le (Timestamp_isoformat t1) (Timestamp_isoformat t2) ↔ t1 <= t2).
Proof.
  intros Hv1 Hv2. split.
  - intros Hle. destruct (Z.le_gt_cases t1 t2) as [H|H]; [done|].
    apply (Timestamp_isoformat_lt _ _ Hv2 Hv1) in H.
    by apply text_le_not_lt in Hle.
  - intros Hle. destruct (Z.eq_dec t1 t2) as [->|Hne]; [done|].
    apply text_lt_le, Timestamp_isoformat_lt; [done..|lia].
Qed.

(** ** Refreshes at increasing clock readings *)

Lemma stamped_before_nil (now : datetime) : stamped_before now [].
Proof. constructor. Qed.

Lemma stamped_before_later (now later : datetime) (table : list BalanceRow) :
  now <= later → stamped_before now table → stamped_before later table.
Proof.
  intros Hle Hst. eapply Forall_impl; [exact Hst|].
  intros b (d & Hv & Hd & Hts). exists d. split; [done|]. split; [lia|done].
Qed.

(** The balance rows that a call adds, whether it returns or raises, carry
    the wallet and the clock reading of the call. *)
Lemma store_wallet_data_stamps float_of_string now conn wallet entries prices trades_df :
  let call := store_wallet_data float_of_string now conn wallet entries prices trades_df in
  ∃ new_balances,
    balances call.1 = balances conn ++ new_balances ∧
    Forall (λ b, b_wallet b = wallet ∧ b_timestamp b = datetime_isoformat now)
      new_balances.
Proof.
  intros call.
  destruct (store_wallet_data_rows float_of_string now conn wallet entries prices
              trades_df) as (new_b & new_t & Hbal & _ & Hrows & _).
  exists new_b. split; [exact Hbal|].
  eapply Forall2_Forall_r; [exact Hrows|]. apply Forall_true.
  by intros entry row (Hw & Ht & _).
Qed.

(** X3: when every stored balance row was stamped by a clock reading before
    [now], a refresh at [now] that inserts at least one balance row makes
    the rows it adds the latest balances of its wallet, whether it returns
    or raises at a later entry. *)
Theorem store_then_latest_by_clock float_of_string now conn (wallet : string)
    (entries : list Balance) (prices : gmap string float)
    (trades_df : option DataFrame) :
  valid_datetime now →
  stamped_before now (balances conn) →
  wallet ≠ "" →
  let call := store_wallet_data float_of_string now conn wallet entries prices trades_df in
  added (balances conn) (balances call.1) ≠ [] →
  get_latest_balances call.1 (Some wallet) = added (balances conn) (balances call.1).
Proof.
  intros Hnow Hstamped Hwallet call.
  destruct (store_wallet_data_stamps float_of_string now conn wallet entries prices
              trades_df) as (new_b & Hbal & Hrows).
  fold call in Hbal. rewrite Hbal, added_app. intros Hnew.
  apply (get_latest_balances_snapshot call.1 wallet (datetime_isoformat now)
           (balances conn) new_b).
  - exact Hwallet.
  - apply datetime_isoformat_nonempty.
  - exact Hnew.
  - exact Hbal.
  - eapply Forall_impl; [exact Hstamped|].
    intros b (d & Hv & Hd & ->) _. by apply datetime_isoformat_lt.
  - exact Hrows.
Qed.

Lemma store_then_latest_by_clock_witness :
  let call :=
    store_wallet_data sample_float next_day empty_db "0xABC" [hype_10; hype_null]
      hype_quote None in
  get_latest_balances call.1 (Some "0xABC")
    = added (balances empty_db) (balances call.1).
Proof.
  apply (store_then_latest_by_clock sample_float next_day empty_db "0xABC"
           [hype_10; hype_null] hype_quote None).
  - unfold valid_datetime, datetime_min, datetime_max, next_day, new_year_2024,
      timedelta. lia.
  - constructor.
  - discriminate.
  - discriminate.
Defined.

(** X4: a refresh at a valid clock reading keeps the table stamped: after
    it, every balance row was stamped before any later clock reading.  With
    X3, refreshes at strictly increasing clock readings always leave the
    last non-empty snapshot of a wallet as its latest balances. *)
Theorem store_keeps_stamped float_of_string now later conn (wallet : string)
    (entries : list Balance) (prices : gmap string float)
    (trades_df : option DataFrame) :
  valid_datetime now →
  now < later →
  stamped_before now (balances conn) →
  stamped_before later
    (balances
       (store_wallet_data float_of_string now conn wallet entries prices trades_df).1).
Proof.
  intros Hnow Hlater Hstamped.
  destruct (store_wallet_data_stamps float_of_string now conn wallet entries prices
              trades_df) as (new_b & Hbal & Hrows).
  rewrite Hbal. unfold stamped_before. apply Forall_app. split.
  - apply (stamped_before_later now); [lia|done].
  - eapply Forall_impl; [exact Hrows|]. intros row [_ Ht]. by exists now.
Qed.

Lemma store_keeps_stamped_witness :
  stamped_before next_day
    (balances
       (store_wallet_data sample_float new_year_2024 empty_db "0xABC" [hype_10]
          hype_quote None).1).
Proof.
  apply (store_keeps_stamped sample_float new_year_2024 next_day empty_db "0xABC"
           [hype_10] hype_quote None).
  - unfold valid_datetime, datetime_min, datetime_max, new_year_2024. lia.
  - unfold next_day, new_year_2024, timedelta. lia.
  - constructor.
Defined.

(** ** History *)

Global Instance earlier_first_transitive : Transitive earlier_first.
Proof. intros b1 b2 b3 H12 H23. unfold earlier_first in *. by etrans. Qed.

Global Instance earlier_first_total : Total earlier_first.
Proof. intros b1 b2. unfold earlier_first. apply (total String.le). Qed.

Lemma truthy_Some (wallet : option string) (w : string) :
  truthy wallet = Some w ↔ wallet = Some w ∧ w ≠ "".
Proof.
  destruct wallet as [w'|]; simpl; [|split; [done|by intros [? _]]].
  destruct (String.eqb_spec w' ""); split; try done.
  - by intros [[= ->] ?].
  - by intros [= ->].
  - by intros [[= ->] _].
Qed.

Lemma days_ago_valid (now : datetime) (days : Z) :
  Z.abs days <= 999999999 → valid_datetime (now - timedelta days) →
  days_ago now days = Ok (now - timedelta days).
Proof.
  intros Hdays [Hlo Hhi]. unfold days_ago.
  rewrite (proj2 (Z.leb_le _ _) Hdays). cbv zeta.
  by rewrite (proj2 (Z.leb_le _ _) Hlo), (proj2 (Z.leb_le _ _) Hhi).
Qed.

Lemma days_ago_inv (now : datetime) (days : Z) (start : datetime) :
  days_ago now days = Ok start →
  start = now - timedelta days ∧ Z.abs days <= 999999999 ∧ valid_datetime start.
Proof.
  unfold days_ago, valid_datetime. cbv zeta.
  destruct (Z.leb_spec (Z.abs days) 999999999); [|done].
  destruct (Z.leb_spec datetime_min (now - timedelta days)); [|done].
  destruct (Z.leb_spec (now - timedelta days) datetime_max); [|done].
  by intros [= <-].
Qed.

(** A window that [timedelta] refuses, or that starts outside the years 1
    to 9999, raises. *)
Lemma get_historical_balances_overflow now conn (wallet : option string) (days : Z) :
  999999999 < Z.abs days ∨ ¬ valid_datetime (now - timedelta days) →
  get_historical_balances now conn wallet days = Raise OverflowError.
Proof.
  intros Hout. unfold get_historical_balances.
  destruct (days_ago now days) as [start|e] eqn:Hstart.
  - apply days_ago_inv in Hstart as (-> & Hdays & Hvalid). destruct Hout; [lia|done].
  - unfold days_ago in Hstart. cbv zeta in Hstart.
    destruct (_ <=? _); [destruct (_ && _)|]; by inversion Hstart.
Qed.

Lemma get_historical_balances_elem now conn (wallet : option string) (days : Z)
    (rows : list BalanceRow) (b : BalanceRow) :
  get_historical_balances now conn wallet days = Ok rows →
  (b ∈ rows ↔
   b ∈ balances conn ∧
   (∀ w, truthy wallet = Some w → b_wallet b = w) ∧
   String.le (datetime_isoformat (now - timedelta days)) (b_timestamp b)).
Proof.
  unfold get_historical_balances.
  destruct (days_ago now days) as [start|e] eqn:Hstart; [|done].
  apply days_ago_inv in Hstart as (-> & _ & _). cbn. intros [= <-].
  rewrite merge_sort_Permutation.
  destruct (truthy wallet) as [w|].
  - rewrite list_elem_of_In, List.filter_In, <- list_elem_of_In, andb_true_iff.
    rewrite String.eqb_eq. unfold String.le. rewrite Is_true_true.
    split.
    + intros (Hin & Hw & Hts). repeat split; [done| |done]. by intros w' [= <-].
    + intros (Hin & Hw & Hts). repeat split; [done| |done]. by apply Hw.
  - rewrite list_elem_of_In, List.filter_In, <- list_elem_of_In.
    unfold String.le. rewrite Is_true_true. split.
    + intros (Hin & Hts). by repeat split.
    + intros (Hin & _ & Hts). by split.
Qed.

Lemma get_historical_balances_returns now conn (wallet : option string) (days : Z) :
  Z.abs days <= 999999999 → valid_datetime (now - timedelta days) →
  ∃ rows,
    get_historical_balances now conn wallet days = Ok rows ∧
    Sorted earlier_first rows.
Proof.
  intros Hdays Hvalid. unfold get_historical_balances.
  rewrite (days_ago_valid _ _ Hdays Hvalid). eexists. split; [reflexivity|].
  apply Sorted_merge_sort. apply _.
Qed.

(** X5: for a window that [timedelta] takes and that starts within the
    years 1 to 9999, [get_historical_balances] returns, earliest first,
    exactly the stored rows whose timestamp is not before the start of the
    window as TEXT, of the wallet when one is given (and not the empty
    string) and of all wallets otherwise. *)
Theorem get_historical_balances_rows now conn (wallet : option string) (days : Z) :
  Z.abs days <= 999999999 →
  valid_datetime (now - timedelta days) →
  ∃ rows,
    get_historical_balances now conn wallet days = Ok rows ∧
    Sorted earlier_first rows ∧
    ∀ b, b ∈ rows ↔
         b ∈ balances conn ∧
         (∀ w, truthy wallet = Some w → b_wallet b = w) ∧
         String.le (datetime_isoformat (now - timedelta days)) (b_timestamp b).
Proof.
  intros Hdays Hvalid.
  destruct (get_historical_balances_returns now conn wallet days Hdays Hvalid)
    as (rows & Hrows & Hsorted).
  exists rows. split; [done|]. split; [done|].
  intros b. by apply get_historical_balances_elem.
Qed.

Lemma get_historical_balances_rows_witness :
  ∃ rows,
    get_historical_balances next_day first_snapshot (Some "0xABC") 7 = Ok rows ∧
    Sorted earlier_first rows ∧
    ∀ b, b ∈ rows ↔
         b ∈ balances first_snapshot ∧
         (∀ w, truthy (Some "0xABC") = Some w → b_wallet b = w) ∧
         String.le (datetime_isoformat (next_day - timedelta 7)) (b_timestamp b).
Proof.
  apply (get_historical_balances_rows next_day first_snapshot (Some "0xABC") 7);
    unfold valid_datetime, datetime_min, datetime_max, next_day, new_year_2024,
      timedelta; lia.
Defined.

(** X6: a row that a refresh has stamped at clock reading [d] is in the
    history of the last [days] days exactly when [d] is not before
    [now - days]: the window that the query cuts as TEXT is the window in
    time. *)
Theorem get_historical_balances_window now conn (wallet : option string)
    (days : Z) (b : BalanceRow) (d : datetime) :
  Z.abs days <= 999999999 →
  valid_datetime (now - timedelta days) →
  valid_datetime d →
  b ∈ balances conn →
  b_timestamp b = datetime_isoformat d →
  ∃ rows,
    get_historical_balances now conn wallet days = Ok rows ∧
    (b ∈ rows ↔
     (∀ w, truthy wallet = Some w → b_wallet b = w) ∧ now - timedelta days <= d).
Proof.
  intros Hdays Hstart Hd Hin Hts.
  destruct (get_historical_balances_returns now conn wallet days Hdays Hstart)
    as (rows & Hrows & _).
  exists rows. split; [done|].
  rewrite (get_historical_balances_elem _ _ _ _ _ _ Hrows), Hts,
    datetime_isoformat_le by done.
  tauto.
Qed.

Lemma get_historical_balances_window_witness :
  ∃ rows,
    get_historical_balances next_day first_snapshot (Some "0xABC") 7 = Ok rows ∧
    (hype_row ∈ rows ↔
     (∀ w, truthy (Some "0xABC") = Some w → b_wallet hype_row = w) ∧
     next_day - timedelta 7 <= new_year_2024).
Proof.
  apply (get_historical_balances_window next_day first_snapshot (Some "0xABC") 7
           hype_row new_year_2024).
  - by vm_compute.
  - unfold valid_datetime, datetime_min, datetime_max, next_day, new_year_2024,
      timedelta. lia.
  - unfold valid_datetime, datetime_min, datetime_max, new_year_2024. lia.
  - vm_compute. apply list_elem_of_here.
  - reflexivity.
Defined.

(** X7: the balance rows that a refresh has added, whether it returned or
    raised, are in the history of its wallet, for every window read off a
    clock that has not run past it. *)
Theorem store_then_history float_of_string now later conn (wallet : string)
    (entries : list Balance) (prices : gmap string float)
    (trades_df : option DataFrame) (days : Z) :
  valid_datetime now →
  Z.abs days <= 999999999 →
  valid_datetime (later - timedelta days) →
  later - timedelta days <= now →
  let conn' :=
    (store_wallet_data float_of_string now conn wallet entries prices trades_df).1 in
  ∃ rows,
    get_historical_balances later conn' (Some wallet) days = Ok rows ∧
    ∀ b, b ∈ added (balances conn) (balances conn') → b ∈ rows.
Proof.
  intros Hnow Hdays Hstart Hle conn'.
  destruct (get_historical_balances_returns later conn' (Some wallet) days Hdays
              Hstart) as (rows & Hrows & _).
  exists rows. split; [done|]. intros b Hb.
  destruct (store_wallet_data_stamps float_of_string now conn wallet entries prices
              trades_df) as (new_b & Hbal & Hstamps).
  fold conn' in Hbal. rewrite Hbal, added_app in Hb.
  rewrite Forall_forall in Hstamps. destruct (Hstamps b Hb) as [Hw Hts].
  apply (get_historical_balances_elem _ _ _ _ _ _ Hrows). split; [|split].
  - rewrite Hbal. apply elem_of_app. by right.
  - intros w [[= <-] _]%truthy_Some. done.
  - rewrite Hts. by apply datetime_isoformat_le.
Qed.

Lemma store_then_history_witness :
  let conn' :=
    (store_wallet_data sample_float new_year_2024 empty_db "0xABC" [hype_10]
       hype_quote None).1 in
  ∃ rows,
    get_historical_balances next_day conn' (Some "0xABC") 30 = Ok rows ∧
    ∀ b, b ∈ added (balances empty_db) (balances conn') → b ∈ rows.
Proof.
  apply (store_then_history sample_float new_year_2024 next_day empty_db "0xABC"
           [hype_10] hype_quote None 30);
    unfold valid_datetime, datetime_min, datetime_max, next_day, new_year_2024,
      timedelta; lia.
Defined.

(** ** Latest balances *)

Lemma sql_max_nil_inv (values : list string) : sql_max values = None → values = [].
Proof. destruct values; [done|]. by rewrite sql_max_cons. Qed.

Lemma text_le_empty (s : string) : String.le "" s.
Proof. by destruct s. Qed.

(** The maximum of a list is its greatest element. *)
Lemma sql_max_greatest (values : list string) (m : string) :
  sql_max values = Some m ↔ m ∈ values ∧ Forall (λ v, String.le v m) values.
Proof.
  split.
  - intros Hmax. split; [by apply sql_max_elem_of|by apply sql_max_upper_bound].
  - intros [Hin Hub].
    destruct (sql_max_is_Some values) as [m' Hm']; [by intros ->; set_solver|].
    rewrite Hm'. f_equal.
    pose proof (sql_max_elem_of _ _ Hm') as Hin'.
    pose proof (sql_max_upper_bound _ _ Hm') as Hub'.
    rewrite Forall_forall in Hub, Hub'.
    apply (anti_symm String.le); auto.
Qed.

(** X8: for a wallet without a stored balance row, [get_latest_balances]
    returns the empty list. *)
Theorem get_latest_balances_unknown_wallet conn (wallet : string) :
  wallet ≠ "" →
  of_wallet wallet (balances conn) = [] →
  get_latest_balances conn (Some wallet) = [].
Proof.
  intros Hwallet Hnone. unfold get_latest_balances.
  by rewrite (truthy_wallet _ Hwallet), Hnone.
Qed.

Lemma get_latest_balances_unknown_wallet_witness :
  get_latest_balances first_snapshot (Some "0xDEF") = [].
Proof.
  apply (get_latest_balances_unknown_wallet first_snapshot "0xDEF");
    [discriminate | reflexivity].
Defined.

(** X9: for a wallet that is not the empty string, the latest balances are
    exactly the rows of the wallet whose timestamp is not empty and is the
    greatest, as TEXT, among the rows of the wallet; so all the rows
    returned carry one and the same timestamp. *)
Theorem get_latest_balances_greatest conn (wallet : string) (b : BalanceRow) :
  wallet ≠ "" →
  (b ∈ get_latest_balances conn (Some wallet) ↔
   b ∈ balances conn ∧ b_wallet b = wallet ∧ b_timestamp b ≠ "" ∧
   ∀ b', b' ∈ balances conn → b_wallet b' = wallet →
         String.le (b_timestamp b') (b_timestamp b)).
Proof.
  intros Hwallet. unfold get_latest_balances. rewrite (truthy_wallet _ Hwallet).
  assert (∀ m, sql_max (b_timestamp <$> of_wallet wallet (balances conn)) = Some m →
            ∀ b', b' ∈ balances conn → b_wallet b' = wallet →
                  String.le (b_timestamp b') m) as Hupper.
  { intros m Hm b' Hin' Hw'. apply sql_max_upper_bound in Hm.
    rewrite Forall_forall in Hm. apply Hm, list_elem_of_fmap. exists b'.
    split; [done|]. apply list_elem_of_In, List.filter_In.
    split; [by apply list_elem_of_In|]. by apply String.eqb_eq. }
  assert (b ∈ balances conn → b_wallet b = wallet →
          b_timestamp b ∈ b_timestamp <$> of_wallet wallet (balances conn)) as Hmem.
  { intros Hin Hw. apply list_elem_of_fmap. exists b. split; [done|].
    apply list_elem_of_In, List.filter_In.
    split; [by apply list_elem_of_In|]. by apply String.eqb_eq. }
  destruct (sql_max _) as [m|] eqn:Hmax.
  - specialize (Hupper m eq_refl).
    destruct (String.eqb_spec m "") as [->|Hm].
    + split; [by intros ?%elem_of_nil|].
      intros (Hin & Hw & Hts & _). exfalso. apply Hts.
      apply (anti_symm String.le); [by apply Hupper|apply text_le_empty].
    + rewrite list_elem_of_In, List.filter_In, <- list_elem_of_In, andb_true_iff.
      rewrite !String.eqb_eq. split.
      * intros (Hin & Hw & ->). by repeat split.
      * intros (Hin & Hw & Hts & Hub). repeat split; [done..|].
        apply (anti_symm String.le); [by apply Hupper|].
        pose proof (sql_max_elem_of _ _ Hmax) as Hm_in.
        apply list_elem_of_fmap in Hm_in as (b' & -> & Hb').
        apply list_elem_of_In, List.filter_In in Hb' as [Hb' Hw'].
        apply Hub; [by apply list_elem_of_In|by apply String.eqb_eq].
  - apply sql_max_nil_inv in Hmax. split; [by intros ?%elem_of_nil|].
    intros (Hin & Hw & _). specialize (Hmem Hin Hw).
    rewrite Hmax in Hmem. by apply elem_of_nil in Hmem.
Qed.

Lemma get_latest_balances_greatest_witness :
  hype_row ∈ get_latest_balances first_snapshot (Some "0xABC") ↔
  hype_row ∈ balances first_snapshot ∧ b_wallet hype_row = "0xABC" ∧
  b_timestamp hype_row ≠ "" ∧
  ∀ b', b' ∈ balances first_snapshot → b_wallet b' = "0xABC" →
        String.le (b_timestamp b') (b_timestamp hype_row).
Proof.
  apply (get_latest_balances_greatest first_snapshot "0xABC" hype_row).
  discriminate.
Defined.

(** X10: when no stored timestamp is empty, the query for one wallet
    returns the rows of that wallet in the answer of the query for all
    wallets. *)
Theorem get_latest_balances_of_all conn (wallet : string) :
  wallet ≠ "" →
  Forall (λ b, b_timestamp b ≠ "") (balances conn) →
  get_latest_balances conn (Some wallet)
    = of_wallet wallet (get_latest_balances conn None).
Proof.
  intros Hwallet Hstamps. unfold get_latest_balances at 1.
  rewrite (truthy_wallet _ Hwallet).
  unfold get_latest_balances, of_wallet at 2. simpl.
  destruct (sql_max (b_timestamp <$> of_wallet wallet (balances conn)))
    as [m|] eqn:Hmax.
  - assert (m ≠ "") as Hm.
    { apply sql_max_elem_of, list_elem_of_fmap in Hmax as (b & -> & Hb).
      apply list_elem_of_In, List.filter_In in Hb as [Hb _].
      rewrite Forall_forall in Hstamps. by apply Hstamps, list_elem_of_In. }
    rewrite (proj2 (String.eqb_neq _ _) Hm).
    assert (∀ l : list BalanceRow,
              List.filter
                (λ b, String.eqb (b_wallet b) wallet && String.eqb (b_timestamp b) m) l
              = List.filter (λ b, String.eqb (b_wallet b) wallet)
                  (List.filter
                     (λ b, bool_decide
                             (sql_max (b_timestamp <$>
                                         of_wallet (b_wallet b) (balances conn))
                              = Some (b_timestamp b))) l)) as Hl; [|apply Hl].
    induction l as [|b l IH]; [done|].
    cbn [List.filter].
    destruct (String.eqb_spec (b_wallet b) wallet) as [Hw|Hw]; cbn [andb].
    + rewrite Hw, Hmax.
      destruct (String.eqb_spec (b_timestamp b) m) as [Ht|Ht].
      * rewrite bool_decide_eq_true_2 by (by rewrite Ht).
        cbn [List.filter]. rewrite Hw, String.eqb_refl. by rewrite IH.
      * rewrite bool_decide_eq_false_2 by (intros [= ?]; done). exact IH.
    + destruct (bool_decide _); [|exact IH].
      cbn [List.filter]. rewrite (proj2 (String.eqb_neq _ _) Hw). exact IH.
  - apply sql_max_nil_inv, fmap_nil_inv in Hmax.
    symmetry. apply filter_none, Forall_forall. intros b Hb.
    apply list_elem_of_In, List.filter_In in Hb as [Hb Hlatest].
    destruct (String.eqb_spec (b_wallet b) wallet) as [Hw|]; [|done].
    exfalso. assert (b ∈ of_wallet wallet (balances conn)) as Hin.
    { apply list_elem_of_In, List.filter_In. split; [done|]. by apply String.eqb_eq. }
    rewrite Hmax in Hin. by apply elem_of_nil in Hin.
Qed.

Lemma get_latest_balances_of_all_witness :
  get_latest_balances second_snapshot (Some "0xABC")
    = of_wallet "0xABC" (get_latest_balances second_snapshot None).
Proof.
  apply (get_latest_balances_of_all second_snapshot "0xABC"); [discriminate|].
  repeat constructor; discriminate.
Defined.

(** ** Primary keys *)

Lemma keys_ok_next (ids : list Z) (seq : Z) :
  keys_ok ids seq → keys_ok (ids ++ [seq + 1]) (seq + 1).
Proof.
  intros [Hnd Hle]. split.
  - apply NoDup_app. split; [done|]. split; [|apply NoDup_singleton].
    intros id Hin [->|[]%elem_of_nil]%elem_of_cons.
    rewrite Forall_forall in Hle. specialize (Hle _ Hin). lia.
  - apply Forall_app. split; [|by repeat constructor].
    eapply Forall_impl; [exact Hle|]. intros id Hid. simpl in Hid. lia.
Qed.

Lemma insert_balance_keys conn wallet timestamp coin amount price value_usd :
  primary_keys_ok conn →
  primary_keys_ok
    (insert_balance conn wallet timestamp coin amount price value_usd).1.
Proof.
  intros [Hb Ht]. unfold insert_balance.
  destruct (sql_real amount); [|done].
  split; [|done]. simpl. rewrite fmap_app. by apply keys_ok_next.
Qed.

Lemma insert_trade_keys conn wallet timestamp coin side size price fee value_usd :
  primary_keys_ok conn →
  primary_keys_ok
    (insert_trade conn wallet timestamp coin side size price fee value_usd).
Proof.
  intros [Hb Ht]. split; [done|]. simpl. rewrite fmap_app. by apply keys_ok_next.
Qed.

Lemma store_balances_keys float_of_string timestamp wallet prices entries conn :
  primary_keys_ok conn →
  primary_keys_ok
    (store_balances float_of_string timestamp wallet prices entries conn).1.
Proof.
  revert conn. induction entries as [|entry entries IH]; intros conn Hok; [done|].
  cbn [store_balances]. cbv zeta.
  destruct (py_float _ _) as [amount|e]; [|done].
  pose proof (insert_balance_keys conn wallet timestamp
                (default "Unknown" (bal_coin entry)) amount
                (default (Finite 0) (prices !! default "Unknown" (bal_coin entry)))
                (float_mul amount
                   (default (Finite 0) (prices !! default "Unknown" (bal_coin entry))))
                Hok) as Hkeys.
  destruct (insert_balance _ _ _ _ _ _ _) as [conn1 [[]|e]]; [by apply IH|done].
Qed.

Lemma store_trades_keys wallet df conn :
  primary_keys_ok conn → primary_keys_ok (store_trades wallet df conn).
Proof.
  unfold store_trades. revert conn.
  induction (rows df) as [|t l IH]; intros conn Hok; [done|].
  cbn [fold_left]. destruct (lacks_essential df); apply IH; [done|].
  by apply insert_trade_keys.
Qed.

Lemma primary_keys_ok_empty_db : primary_keys_ok empty_db.
Proof. repeat split; constructor. Qed.

(** X11: a refresh keeps the primary keys sound, whether it returns or
    raises: when the ids of each table are distinct and not above the last
    id handed out, they still are after [store_wallet_data]; no insert
    reuses an id. *)
Theorem store_keeps_primary_keys float_of_string now conn (wallet : string)
    (entries : list Balance) (prices : gmap string float)
    (trades_df : option DataFrame) :
  primary_keys_ok conn →
  primary_keys_ok
    (store_wallet_data float_of_string now conn wallet entries prices trades_df).1.
Proof.
  intros Hok. unfold store_wallet_data. cbv zeta.
  pose proof (store_balances_keys float_of_string (datetime_isoformat now) wallet
                prices entries conn Hok) as Hb.
  destruct (store_balances _ _ _ _ _ _) as [conn1 [[]|e]]; [|done].
  destruct trades_df as [df|]; [|done].
  destruct (empty df); [done|]. by apply store_trades_keys.
Qed.

Lemma store_keeps_primary_keys_witness :
  primary_keys_ok
    (store_wallet_data sample_float new_year_2024 empty_db "0xABC" [hype_10]
       hype_quote (Some sample_fills)).1.
Proof.
  apply (store_keeps_primary_keys sample_float new_year_2024 empty_db "0xABC"
           [hype_10] hype_quote (Some sample_fills)).
  repeat split; constructor.
Defined.

(** ** Trades in and out *)

Lemma get_recent_trades_Ok conn (wallet : option string) (limit : Z) :
  - 2 ^ 63 <= limit < 2 ^ 63 →
  get_recent_trades conn wallet limit
    = Ok (sql_limit limit (merge_sort later_first (trades_of wallet conn))).
Proof.
  intros Hfits. unfold get_recent_trades. by rewrite sql_integer_in_range.
Qed.

Lemma get_recent_trades_inv conn (wallet : option string) (limit : Z)
    (rows : list TradeRow) :
  get_recent_trades conn wallet limit = Ok rows →
  rows = sql_limit limit (merge_sort later_first (trades_of wallet conn)).
Proof.
  unfold get_recent_trades, sql_integer.
  destruct (_ && _); [|done]. by intros [= <-].
Qed.

(** X12: the trades that a refresh stores come back: read without a limit
    (a negative one that fits 64 bits), the trades of the wallet after the
    refresh, whether it returned or raised, are the trades of the wallet
    before it together with the rows the refresh has added. *)
Theorem store_then_recent_trades float_of_string now conn (wallet : string)
    (entries : list Balance) (prices : gmap string float)
    (trades_df : option DataFrame) (limit : Z) :
  - 2 ^ 63 <= limit < 0 →
  let conn' :=
    (store_wallet_data float_of_string now conn wallet entries prices trades_df).1 in
  ∃ before after,
    get_recent_trades conn (Some wallet) limit = Ok before ∧
    get_recent_trades conn' (Some wallet) limit = Ok after ∧
    after ≡ₚ before ++ added (trades conn) (trades conn').
Proof.
  intros [Hfits Hneg] conn'.
  rewrite !get_recent_trades_Ok by lia. eexists _, _.
  split; [reflexivity|]. split; [reflexivity|].
  rewrite !sql_limit_negative, !merge_sort_Permutation by done.
  destruct (store_wallet_data_rows float_of_string now conn wallet entries prices
              trades_df) as (new_b & new_t & _ & Htr & _ & Hend).
  fold conn' in Htr. rewrite Htr, added_app. unfold trades_of.
  destruct (truthy (Some wallet)) as [w|] eqn:Hw; rewrite ?Htr; [|done].
  apply truthy_Some in Hw as [[= <-] _].
  rewrite List.filter_app, (filter_all _ new_t); [done|].
  destruct (_.2); [|by destruct Hend as [_ ->]].
  destruct Hend as [_ Hrows].
  eapply Forall2_Forall_r; [exact Hrows|]. apply Forall_true.
  intros t r [-> _]. apply String.eqb_refl.
Qed.

Lemma store_then_recent_trades_witness :
  let conn' :=
    (store_wallet_data sample_float next_day first_snapshot "0xABC" [hype_10]
       hype_quote (Some sample_fills)).1 in
  ∃ before after,
    get_recent_trades first_snapshot (Some "0xABC") (-1) = Ok before ∧
    get_recent_trades conn' (Some "0xABC") (-1) = Ok after ∧
    after ≡ₚ before ++ added (trades first_snapshot) (trades conn').
Proof.
  apply (store_then_recent_trades sample_float next_day first_snapshot "0xABC"
           [hype_10] hype_quote (Some sample_fills) (-1)).
  split; [by vm_compute | lia].
Defined.

Lemma sql_limit_split {A : Type} (n : Z) (l : list A) :
  ∃ rest, l = sql_limit n l ++ rest.
Proof.
  unfold sql_limit. destruct (n <? 0).
  - exists []. by rewrite app_nil_r.
  - exists (drop (Z.to_nat n) l). by rewrite take_drop.
Qed.

(** X13: the rows that [get_recent_trades] returns are the most recent
    ones: every selected row that it leaves out is no later, as TEXT, than
    every row it returns. *)
Theorem get_recent_trades_most_recent conn (wallet : option string) (limit : Z)
    (rows : list TradeRow) :
  get_recent_trades conn wallet limit = Ok rows →
  ∃ rest,
    trades_of wallet conn ≡ₚ rows ++ rest ∧
    ∀ r r', r ∈ rows → r' ∈ rest → later_first r r'.
Proof.
  intros ->%get_recent_trades_inv.
  destruct (sql_limit_split limit (merge_sort later_first (trades_of wallet conn)))
    as [rest Hsplit].
  exists rest. split.
  - by rewrite <- Hsplit, merge_sort_Permutation.
  - intros r r' Hr Hr'.
    pose proof (StronglySorted_merge_sort later_first (trades_of wallet conn))
      as Hsorted.
    rewrite Hsplit in Hsorted.
    by eapply StronglySorted_app_1_elem_of.
Qed.

Lemma get_recent_trades_most_recent_witness :
  ∃ rest,
    trades_of (Some "0xABC") second_snapshot
      ≡ₚ take 3 (merge_sort later_first (trades second_snapshot)) ++ rest ∧
    ∀ r r', r ∈ take 3 (merge_sort later_first (trades second_snapshot)) →
            r' ∈ rest → later_first r r'.
Proof.
  apply (get_recent_trades_most_recent second_snapshot (Some "0xABC") 3).
  reflexivity.
Defined.

Lemma StronglySorted_lookup {A : Type} (R : relation A) (l : list A)
    (i j : nat) (x y : A) :
  StronglySorted R l → (i < j)%nat → l !! i = Some x → l !! j = Some y → R x y.
Proof.
  intros Hsorted. revert i j.
  induction Hsorted as [|a l Hl IH Hall]; intros i j Hij Hi Hj; [done|].
  destruct j as [|j]; [lia|]. destruct i as [|i].
  - simpl in Hi. injection Hi as <-. simpl in Hj.
    rewrite Forall_forall in Hall. apply Hall. by eapply list_elem_of_lookup_2.
  - simpl in Hi, Hj. apply (IH i j); [lia|done..].
Qed.

(** X14: recent trades come back in the order of time: of two returned
    rows whose timestamps are the texts of valid trade times, the one
    returned first is not the earlier trade. *)
Theorem get_recent_trades_in_time_order conn (wallet : option string) (limit : Z)
    (rows : list TradeRow) (i j : nat) (r1 r2 : TradeRow) (t1 t2 : Timestamp) :
  get_recent_trades conn wallet limit = Ok rows →
  (i < j)%nat →
  rows !! i = Some r1 →
  rows !! j = Some r2 →
  valid_Timestamp t1 → r_timestamp r1 = Timestamp_isoformat t1 →
  valid_Timestamp t2 → r_timestamp r2 = Timestamp_isoformat t2 →
  t2 <= t1.
Proof.
  intros ->%get_recent_trades_inv Hij Hi Hj Hv1 Hr1 Hv2 Hr2.
  assert (StronglySorted later_first
            (sql_limit limit (merge_sort later_first (trades_of wallet conn)))) as Hs.
  { apply Sorted_StronglySorted; [apply _|].
    apply sql_limit_Sorted, Sorted_merge_sort. apply _. }
  pose proof (StronglySorted_lookup _ _ _ _ _ _ Hs Hij Hi Hj) as Hlater.
  unfold later_first in Hlater. rewrite Hr1, Hr2 in Hlater.
  by apply Timestamp_isoformat_le in Hlater.
Qed.

Lemma get_recent_trades_in_time_order_witness :
  to_Timestamp new_year_2024 - 3600000000000
    <= to_Timestamp new_year_2024 - 1800000000000.
Proof.
  eapply (get_recent_trades_in_time_order first_snapshot None 10 _ 0 1 _ _
            (to_Timestamp new_year_2024 - 1800000000000)
            (to_Timestamp new_year_2024 - 3600000000000)).
  - reflexivity.
  - lia.
  - reflexivity.
  - reflexivity.
  - unfold valid_Timestamp, to_Timestamp, datetime_min, datetime_max,
      new_year_2024. lia.
  - reflexivity.
  - unfold valid_Timestamp, to_Timestamp, datetime_min, datetime_max,
      new_year_2024. lia.
  - reflexivity.
Defined.

(** ** Which calls raise *)






(** ** Errors of the metric engine *)

Lemma window_nil_rows now label df : rows df = [] → window now label df = [].
Proof. intros Hrows. unfold window. by rewrite Hrows. Qed.

Lemma window_empty_false now label df :
  has_column "timestamp" df = true → window now label df ≠ [] → empty df = false.
Proof.
  intros Hts Hwin. apply empty_false. split; [by eapply has_column_columns|].
  intros Hnil. by apply Hwin, window_nil_rows.
Qed.

(** X17: [calculate_volume] raises in one case only: on a frame that is
    not empty and has no [timestamp] column it raises KeyError('timestamp');
    on every other frame it returns the sum of the traded values in the
    window, which is 0 when no trade is in the window. *)
Theorem calculate_volume_errors now (trades_df : DataFrame) (label : string) :
  (empty trades_df = false → has_column "timestamp" trades_df = false →
   calculate_volume now trades_df label = Raise (KeyError "timestamp")) ∧
  (empty trades_df = true ∨ has_column "timestamp" trades_df = true →
   calculate_volume now trades_df label
     = Ok (if empty trades_df then 0%Q
           else Qsum (traded_value trades_df <$> window now label trades_df))).
Proof.
  split.
  - intros Hne Hts. unfold calculate_volume, since.
    by rewrite Hne, (column_missing _ _ _ Hts).
  - intros [Hempty|Hts].
    + unfold calculate_volume. by rewrite Hempty.
    + rewrite (calculate_volume_window _ _ _ Hts).
      destruct (empty trades_df) eqn:Hempty; [|done].
      unfold empty in Hempty.
      rewrite (bool_decide_eq_false_2 _ (has_column_columns _ _ Hts)) in Hempty.
      apply bool_decide_eq_true in Hempty. by rewrite window_nil_rows.
Qed.

Lemma calculate_volume_errors_witness :
  (empty sample_fills = false → has_column "timestamp" sample_fills = false →
   calculate_volume new_year_2024 sample_fills "7 days"
     = Raise (KeyError "timestamp")) ∧
  (empty sample_fills = true ∨ has_column "timestamp" sample_fills = true →
   calculate_volume new_year_2024 sample_fills "7 days"
     = Ok (if empty sample_fills then 0%Q
           else Qsum (traded_value sample_fills
                        <$> window new_year_2024 "7 days" sample_fills))).
Proof. apply (calculate_volume_errors new_year_2024 sample_fills "7 days"). Defined.

(** What [calculate_pnl] returns when the window holds a trade and the
    columns it reads are there. *)
Lemma calculate_pnl_result now (trades_df : DataFrame) (prices : gmap string Q) label :
  has_column "timestamp" trades_df = true →
  has_column "value_usd" trades_df = true →
  has_column "pnl" trades_df = true ∨ has_column "side" trades_df = true →
  window now label trades_df ≠ [] →
  calculate_pnl now trades_df prices label
    = Ok (pnl_total trades_df (window now label trades_df),
          pnl_percentage (pnl_total trades_df (window now label trades_df))
            (Qsum (t_value_usd <$> window now label trades_df))).
Proof.
  intros Hts Hvalue Hcols Hwin. unfold pnl_total, pnl_percentage.
  destruct (has_column "pnl" trades_df) eqn:Hpnl.
  - assert (columns trades_df ≠ []) as Hc by eauto using has_column_columns.
    unfold calculate_pnl.
    rewrite (window_empty_false _ _ _ Hts Hwin), (since_present _ _ Hts). simpl.
    rewrite (empty_select _ _ Hc), bool_decide_eq_false_2 by exact Hwin.
    rewrite has_column_select, Hpnl.
    rewrite (column_present _ t_pnl) by (by rewrite has_column_select). simpl.
    rewrite (column_present _ t_value_usd) by (by rewrite has_column_select). simpl.
    by rewrite percentage_guarded.
  - destruct Hcols as [|Hside]; [done|].
    by apply calculate_pnl_estimate.
Qed.

(** X18: on a frame with a [timestamp] column and a trade in the window,
    [calculate_pnl] raises KeyError('side') when the frame has neither a
    [pnl] nor a [side] column, KeyError('value_usd') when it has one of
    them and no [value_usd] column, and returns otherwise. *)
Theorem calculate_pnl_errors now (trades_df : DataFrame) (prices : gmap string Q)
    (label : string) :
  has_column "timestamp" trades_df = true →
  window now label trades_df ≠ [] →
  calculate_pnl now trades_df prices label =
    if negb (has_column "pnl" trades_df) && negb (has_column "side" trades_df)
    then Raise (KeyError "side")
    else if negb (has_column "value_usd" trades_df)
    then Raise (KeyError "value_usd")
    else Ok (pnl_total trades_df (window now label trades_df),
             pnl_percentage (pnl_total trades_df (window now label trades_df))
               (Qsum (t_value_usd <$> window now label trades_df))).
Proof.
  intros Hts Hwin.
  assert (columns trades_df ≠ []) as Hc by eauto using has_column_columns.
  destruct (has_column "value_usd" trades_df) eqn:Hvalue;
    destruct (has_column "pnl" trades_df) eqn:Hpnl;
    destruct (has_column "side" trades_df) eqn:Hside; cbn [negb andb];
    try (apply calculate_pnl_result; auto; fail);
    try (by apply calculate_pnl_needs_value_usd).
  all: unfold calculate_pnl;
    rewrite (window_empty_false _ _ _ Hts Hwin), (since_present _ _ Hts); simpl;
    rewrite (empty_select _ _ Hc), bool_decide_eq_false_2 by exact Hwin;
    rewrite has_column_select, Hpnl.
  - unfold with_side.
    rewrite (column_missing _ t_side) by (by rewrite has_column_select). done.
  - rewrite !with_side_present by (by rewrite has_column_select). simpl.
    rewrite !(column_missing _ t_value_usd) by (by rewrite !has_column_select).
    by repeat (destruct (empty _); simpl).
  - unfold with_side.
    rewrite (column_missing _ t_side) by (by rewrite has_column_select). done.
Qed.

Lemma calculate_pnl_errors_witness :
  calculate_pnl new_year_2024 sample_fills hype_price "24 hours" =
    if negb (has_column "pnl" sample_fills) && negb (has_column "side" sample_fills)
    then Raise (KeyError "side")
    else if negb (has_column "value_usd" sample_fills)
    then Raise (KeyError "value_usd")
    else Ok (pnl_total sample_fills (window new_year_2024 "24 hours" sample_fills),
             pnl_percentage
               (pnl_total sample_fills (window new_year_2024 "24 hours" sample_fills))
               (Qsum (t_value_usd <$> window new_year_2024 "24 hours" sample_fills))).
Proof.
  apply (calculate_pnl_errors new_year_2024 sample_fills hype_price "24 hours");
    [reflexivity|]. vm_compute. discriminate.
Defined.

(** ** P&L against volume *)

(** X19: the percentage of [calculate_pnl] is taken over half the volume:
    on a frame with [timestamp] and [value_usd] columns, and a [pnl] or a
    [side] column, that has a trade in the window, [calculate_volume]
    returns a volume v and [calculate_pnl] returns total / (v / 2) * 100
    when v / 2 is positive and 0 otherwise. *)
Theorem calculate_pnl_over_volume now (trades_df : DataFrame)
    (prices : gmap string Q) (label : string) :
  has_column "timestamp" trades_df = true →
  has_column "value_usd" trades_df = true →
  has_column "pnl" trades_df = true ∨ has_column "side" trades_df = true →
  window now label trades_df ≠ [] →
  ∃ volume total_pnl,
    calculate_volume now trades_df label = Ok volume ∧
    calculate_pnl now trades_df prices label
      = Ok (total_pnl,
            if Qpositive (volume / 2) then (total_pnl / (volume / 2) * 100)%Q
            else 0%Q).
Proof.
  intros Hts Hvalue Hcols Hwin. eexists _, _. split.
  - by apply calculate_volume_window.
  - rewrite (calculate_pnl_result _ _ _ _ Hts Hvalue Hcols Hwin).
    unfold pnl_percentage, traded_value. by rewrite Hvalue.
Qed.

Lemma calculate_pnl_over_volume_witness :
  ∃ volume total_pnl,
    calculate_volume new_year_2024 sample_fills "24 hours" = Ok volume ∧
    calculate_pnl new_year_2024 sample_fills hype_price "24 hours"
      = Ok (total_pnl,
            if Qpositive (volume / 2) then (total_pnl / (volume / 2) * 100)%Q
            else 0%Q).
Proof.
  apply (calculate_pnl_over_volume new_year_2024 sample_fills hype_price "24 hours");
    [reflexivity | reflexivity | by right | vm_compute; discriminate].
Defined.

(** X20: with a [pnl] column the total of every period is the sum of the
    [pnl] of the trades in its window; a trade outside the window adds
    nothing. *)
Theorem calculate_pnl_column now (trades_df : DataFrame) (prices : gmap string Q)
    (label : string) :
  has_column "timestamp" trades_df = true →
  has_column "pnl" trades_df = true →
  has_column "value_usd" trades_df = true →
  ∃ pnl_percentage,
    calculate_pnl now trades_df prices label
      = Ok (Qsum (t_pnl <$> window now label trades_df), pnl_percentage).
Proof.
  intros Hts Hpnl Hvalue.
  destruct (window now label trades_df) as [|t l] eqn:Hwin.
  - exists 0%Q. unfold calculate_pnl.
    destruct (empty trades_df) eqn:Hempty; [done|].
    rewrite (since_present _ _ Hts). simpl.
    rewrite (empty_select _ _ (has_column_columns _ _ Hts)).
    fold (in_window now (period_days label)). fold (window now label trades_df).
    by rewrite Hwin.
  - eexists. rewrite calculate_pnl_result; [|done|done|by left|by rewrite Hwin].
    unfold pnl_total. by rewrite Hpnl, Hwin.
Qed.

Lemma calculate_pnl_column_witness :
  ∃ pnl_percentage,
    calculate_pnl new_year_2024 old_and_new_pnl hype_price "7 days"
      = Ok (Qsum (t_pnl <$> window new_year_2024 "7 days" old_and_new_pnl),
            pnl_percentage).
Proof.
  apply (calculate_pnl_column new_year_2024 old_and_new_pnl hype_price "7 days");
    reflexivity.
Defined.

Lemma Qsum_nonneg (values : list Q) :
  Forall (λ v, (0 <= v)%Q) values → (0 <= Qsum values)%Q.
Proof.
  induction 1 as [|v l Hv _ IH]; [apply Qle_refl|]. rewrite Qsum_cons. lra.
Qed.





